(** * DatAI chat gateway: the chat page and the request pipeline

    The first half embeds the program: the chat page of the React client
    ([ChatPage.tsx], [ModelSelector.tsx]) as a transition system over the
    page's state hooks, and the backend pipeline components (rate limiter,
    router, response cleaner, orchestrator, request schema).  The second
    half states and proves the properties. *)

From Stdlib Require Import Ascii String List ZArith QArith Bool Lia.
From stdpp Require Import gmap strings list.
Import ListNotations.

Local Open Scope Z_scope.
Local Open Scope nat_scope.

(* ===================================================================== *)
(** ** JavaScript strings as the page uses them *)
(* ===================================================================== *)

Module JS.

(** White space removed by [String.prototype.trim], for characters with
    a code below 256: TAB, LF, VT, FF, CR, SP and NBSP. *)
Definition is_white_space (c : ascii) : bool :=
  let n := nat_of_ascii c in
  (n =? 9) || (n =? 10) || (n =? 11) || (n =? 12) || (n =? 13)
  || (n =? 32) || (n =? 160).

Fixpoint trimStart (s : string) : string :=
  match s with
  | EmptyString => EmptyString
  | String c t => if is_white_space c then trimStart t else s
  end.

Fixpoint trimEnd (s : string) : string :=
  match s with
  | EmptyString => EmptyString
  | String c t =>
      match trimEnd t with
      | EmptyString =>
          if is_white_space c then EmptyString else String c EmptyString
      | t' => String c t'
      end
  end.

(** [s.trim()] *)
Definition trim (s : string) : string := trimEnd (trimStart s).

(** Truthiness of a string: every string but the empty one. *)
Definition truthy (s : string) : bool :=
  match s with EmptyString => false | String _ _ => true end.

(** [a || b] on strings. *)
Definition or_else (a b : string) : string := if truthy a then a else b.

(** Truthiness of a possibly undefined string ([useParams] result). *)
Definition truthy_opt (o : option string) : bool :=
  match o with Some s => truthy s | None => false end.

(** [x || undefined] *)
Definition or_undefined (o : option string) : option string :=
  if truthy_opt o then o else None.

(** The fields of an [Error] object the page reads. *)
Record Error := { message : string }.

(** [s.repeat(n)] *)
Fixpoint repeat (s : string) (n : nat) : string :=
  match n with
  | O => EmptyString
  | S k => String.append s (repeat s k)
  end.

Fixpoint all_white_space (s : string) : bool :=
  match s with
  | EmptyString => true
  | String c t => is_white_space c && all_white_space t
  end.

End JS.

Module Text.

(** [tok] occurs in [text]. *)
Fixpoint occurs (tok text : string) : bool :=
  String.prefix tok text
  || match text with
     | EmptyString => false
     | String _ rest => occurs tok rest
     end.

(** [text] without its first [n] characters. *)
Fixpoint skip (n : nat) (text : string) : string :=
  match n, text with
  | S k, String _ rest => skip k rest
  | _, _ => text
  end.

End Text.

(* ===================================================================== *)
(** ** The payloads exchanged with [chatApi] *)
(* ===================================================================== *)

Module ChatApi.

Record Meta := {
  model : string;
  mode : string;
  temperature : Q;
  top_p : Q;
  max_tokens : Z
}.

(** Argument of [chatApi.sendMessageStream] and [chatApi.sendMessage]. *)
Record Request := {
  conversation_id : option string;
  message : string;
  meta : Meta
}.

(** What the metadata event and the synchronous response carry, as far
    as the page reads them. *)
Record Metadata := { md_conversation_id : string }.
Record Response := { data_conversation_id : string }.

End ChatApi.

(* ===================================================================== *)
(** ** ModelSelector.tsx *)
(* ===================================================================== *)

Module ModelSelector.

(** A label is held as the bytes of the source file; the component only
    renders it. *)
Record Entry := { id : string; label : string; description : string }.

Definition models : list Entry :=
  [ {| id := "auto"; label := "🤖 Auto (Smart Routing)";
       description := "Automatically picks the best specialist" |};
    {| id := "theory-specialist"; label := "📚 Theory";
       description := "Data science concepts & ML theory" |};
    {| id := "code-specialist"; label := "💻 Code";
       description := "Programming & debugging" |};
    {| id := "math-specialist"; label := "🔢 Math";
       description := "Calculations & statistics" |} ].

(** [models.find(m => m.id === value) || models[0]] *)
Definition selectedModel (value : string) : option Entry :=
  match find (fun m => String.eqb (id m) value) models with
  | Some m => Some m
  | None => head models
  end.

End ModelSelector.

(* ===================================================================== *)
(** ** ChatPage.tsx *)
(* ===================================================================== *)

Module ChatPage.

(** React-query keys the page invalidates. *)
Inductive QueryKey :=
| QConversations
| QConversation (conversationId : option string).

(** What the page does to the outside, in the order it does it
    ([console] output left out). *)
Inductive Effect :=
| SendMessageStream (r : ChatApi.Request)
| Mutate (r : ChatApi.Request)
| Alert (text : string)
| Navigate (path : string)
| InvalidateQueries (k : QueryKey).

(** The variables of one [handleSend] call that its callbacks close
    over. *)
Record Closure := {
  cl_conversationId : option string;
  cl_currentMessage : string;
  cl_selectedModel : string
}.

(** The state hooks of the page, its route parameter, the signed-in
    user, the calls to [chatApi] that have not finished yet, the closure
    of the callbacks handed to the stream, and the effects so far. *)
Record State := {
  message : string;
  selectedModel : string;
  streamingMessage : string;
  isStreaming : bool;
  conversationId : option string;
  currentUser : option string;
  pendingMutations : nat;
  openStreams : nat;
  callbacks : option Closure;
  effects : list Effect
}.

Definition setMessage (v : string) (s : State) : State :=
  {| message := v; selectedModel := selectedModel s;
     streamingMessage := streamingMessage s; isStreaming := isStreaming s;
     conversationId := conversationId s; currentUser := currentUser s;
     pendingMutations := pendingMutations s; openStreams := openStreams s;
     callbacks := callbacks s; effects := effects s |}.

Definition setSelectedModel (v : string) (s : State) : State :=
  {| message := message s; selectedModel := v;
     streamingMessage := streamingMessage s; isStreaming := isStreaming s;
     conversationId := conversationId s; currentUser := currentUser s;
     pendingMutations := pendingMutations s; openStreams := openStreams s;
     callbacks := callbacks s; effects := effects s |}.

(** [setStreamingMessage] takes an updater, as in
    [setStreamingMessage((prev) => prev + chunk)]. *)
Definition setStreamingMessage (f : string -> string) (s : State) : State :=
  {| message := message s; selectedModel := selectedModel s;
     streamingMessage := f (streamingMessage s); isStreaming := isStreaming s;
     conversationId := conversationId s; currentUser := currentUser s;
     pendingMutations := pendingMutations s; openStreams := openStreams s;
     callbacks := callbacks s; effects := effects s |}.

Definition setIsStreaming (v : bool) (s : State) : State :=
  {| message := message s; selectedModel := selectedModel s;
     streamingMessage := streamingMessage s; isStreaming := v;
     conversationId := conversationId s; currentUser := currentUser s;
     pendingMutations := pendingMutations s; openStreams := openStreams s;
     callbacks := callbacks s; effects := effects s |}.

Definition setRoute (v : option string) (s : State) : State :=
  {| message := message s; selectedModel := selectedModel s;
     streamingMessage := streamingMessage s; isStreaming := isStreaming s;
     conversationId := v; currentUser := currentUser s;
     pendingMutations := pendingMutations s; openStreams := openStreams s;
     callbacks := callbacks s; effects := effects s |}.

Definition setUser (v : option string) (s : State) : State :=
  {| message := message s; selectedModel := selectedModel s;
     streamingMessage := streamingMessage s; isStreaming := isStreaming s;
     conversationId := conversationId s; currentUser := v;
     pendingMutations := pendingMutations s; openStreams := openStreams s;
     callbacks := callbacks s; effects := effects s |}.

Definition setInFlight (mutations streams : nat) (s : State) : State :=
  {| message := message s; selectedModel := selectedModel s;
     streamingMessage := streamingMessage s; isStreaming := isStreaming s;
     conversationId := conversationId s; currentUser := currentUser s;
     pendingMutations := mutations; openStreams := streams;
     callbacks := callbacks s; effects := effects s |}.

Definition setCallbacks (cl : Closure) (s : State) : State :=
  {| message := message s; selectedModel := selectedModel s;
     streamingMessage := streamingMessage s; isStreaming := isStreaming s;
     conversationId := conversationId s; currentUser := currentUser s;
     pendingMutations := pendingMutations s; openStreams := openStreams s;
     callbacks := Some cl; effects := effects s |}.

Definition emit (e : Effect) (s : State) : State :=
  {| message := message s; selectedModel := selectedModel s;
     streamingMessage := streamingMessage s; isStreaming := isStreaming s;
     conversationId := conversationId s; currentUser := currentUser s;
     pendingMutations := pendingMutations s; openStreams := openStreams s;
     callbacks := callbacks s; effects := effects s ++ [e] |}.

(** The page as first rendered on a route, for a signed-in user or
    none: the initial values of the [useState] hooks. *)
Definition initial (route user : option string) : State :=
  {| message := ""; selectedModel := "auto"; streamingMessage := "";
     isStreaming := false; conversationId := route; currentUser := user;
     pendingMutations := 0; openStreams := 0; callbacks := None;
     effects := [] |}.

(** [sendMessageMutation.isPending] *)
Definition isPending (s : State) : bool := 0 <? pendingMutations s.

(** [navigate(`/app/c/${id}`)]: the effect, and the route parameter the
    page reads afterwards. *)
Definition navigateToConversation (cid : string) (s : State) : State :=
  setRoute (Some cid) (emit (Navigate ("/app/c/" +:+ cid)) s).

(** [sendMessageMutation.mutate(r)] *)
Definition mutate (r : ChatApi.Request) (s : State) : State :=
  setInFlight (S (pendingMutations s)) (openStreams s) (emit (Mutate r) s).

(** The stream call of one [handleSend] is over. *)
Definition closeStream (s : State) : State :=
  setInFlight (pendingMutations s) (pred (openStreams s)) s.

(** The mutation's promise settled. *)
Definition settleMutation (s : State) : State :=
  setInFlight (pred (pendingMutations s)) (openStreams s) s.

(** The object literal passed to [chatApi.sendMessageStream]
    (lines 120-130). *)
Definition streamRequest (cl : Closure) : ChatApi.Request :=
  {| ChatApi.conversation_id := JS.or_undefined (cl_conversationId cl);
     ChatApi.message := cl_currentMessage cl;
     ChatApi.meta :=
       {| ChatApi.model := cl_selectedModel cl;
          ChatApi.mode := "chat";
          ChatApi.temperature := 7 # 10;
          ChatApi.top_p := 95 # 100;
          ChatApi.max_tokens := 2048 |} |}.

(** The object literal passed to [sendMessageMutation.mutate]
    (lines 164-174). *)
Definition fallbackRequest (cl : Closure) : ChatApi.Request :=
  {| ChatApi.conversation_id := JS.or_undefined (cl_conversationId cl);
     ChatApi.message := cl_currentMessage cl;
     ChatApi.meta :=
       {| ChatApi.model := cl_selectedModel cl;
          ChatApi.mode := "chat";
          ChatApi.temperature := 7 # 10;
          ChatApi.top_p := 95 # 100;
          ChatApi.max_tokens := 2048 |} |}.

(** *** The callbacks handed to [chatApi.sendMessageStream] *)

Definition onMetadata (cl : Closure) (metadata : ChatApi.Metadata)
    (s : State) : State :=
  if negb (JS.truthy_opt (cl_conversationId cl))
     && JS.truthy (ChatApi.md_conversation_id metadata)
  then navigateToConversation (ChatApi.md_conversation_id metadata)
         (emit (InvalidateQueries QConversations) s)
  else s.

Definition onChunk (chunk : string) (s : State) : State :=
  setStreamingMessage (fun prev => prev +:+ chunk) s.

Definition onComplete (cl : Closure) (messageId : string) (s : State)
    : State :=
  emit (InvalidateQueries QConversations)
    (emit (InvalidateQueries (QConversation (cl_conversationId cl)))
       (setStreamingMessage (fun _ => "")
          (setIsStreaming false s))).

Definition onError (cl : Closure) (error : JS.Error) (s : State) : State :=
  mutate (fallbackRequest cl)
    (emit (Alert ("Error: " +:+
                  JS.or_else (JS.message error)
                    "Failed to send message. Please try again."))
       (setStreamingMessage (fun _ => "")
          (setIsStreaming false s))).

(** The [catch] block around the stream call (lines 181-186). *)
Definition onThrow (error : JS.Error) (s : State) : State :=
  emit (Alert ("Error: " +:+
               JS.or_else (JS.message error)
                 "Failed to send message. Please check console for details."))
    (setStreamingMessage (fun _ => "")
       (setIsStreaming false s)).

(** [onSuccess] of [sendMessageMutation] (lines 54-60). *)
Definition onSuccess (data : ChatApi.Response) (s : State) : State :=
  let s1 :=
    emit (InvalidateQueries QConversations)
      (emit (InvalidateQueries
               (QConversation (Some (ChatApi.data_conversation_id data)))) s) in
  if negb (JS.truthy_opt (conversationId s1))
  then navigateToConversation (ChatApi.data_conversation_id data) s1
  else s1.

(** [handleSend] up to the point where the stream call is made
    (lines 98-130); what the stream then does arrives as events. *)
Definition handleSend (s : State) : State :=
  if negb (JS.truthy (JS.trim (message s))) || isStreaming s then s
  else
    let currentMessage := message s in
    let s1 :=
      setStreamingMessage (fun _ => "")
        (setIsStreaming true (setMessage "" s)) in
    match currentUser s1 with
    | None =>
        setIsStreaming false (emit (Alert "Please log in to send messages") s1)
    | Some _ =>
        let cl := {| cl_conversationId := conversationId s1;
                     cl_currentMessage := currentMessage;
                     cl_selectedModel := selectedModel s1 |} in
        setInFlight (pendingMutations s1) (S (openStreams s1))
          (setCallbacks cl (emit (SendMessageStream (streamRequest cl)) s1))
    end.

(** *** Events *)

Inductive Event :=
| InputChange (value : string)
| ExampleClick (question : string)
| ModelClick (entry : nat)
| SubmitClick
| EnterKey
| RouteChange (route : option string)
| AuthChange (user : option string)
| StreamMetadata (metadata : ChatApi.Metadata)
| StreamChunk (chunk : string)
| StreamComplete (messageId : string)
| StreamError (error : JS.Error)
| StreamThrow (error : JS.Error)
| MutationSuccess (data : ChatApi.Response)
| MutationFailure.

(** The example questions of the empty conversation (lines 355-372). *)
Definition examples : list string :=
  [ "How do I perform feature engineering?";
    "Explain random forests algorithm";
    "What's the best way to handle missing values in a dataset?" ].

Definition with_callbacks (f : Closure -> State -> State) (s : State)
    : State :=
  match callbacks s with
  | Some cl => f cl s
  | None => s
  end.

Definition step (e : Event) (s : State) : State :=
  match e with
  | InputChange v => setMessage v s
  | ExampleClick q => setMessage q s
  | ModelClick i =>
      match nth_error ModelSelector.models i with
      | Some m => setSelectedModel (ModelSelector.id m) s
      | None => s
      end
  | SubmitClick => handleSend s
  | EnterKey => handleSend s
  | RouteChange r => setRoute r s
  | AuthChange u => setUser u s
  | StreamMetadata md => with_callbacks (fun cl => onMetadata cl md) s
  | StreamChunk c => with_callbacks (fun _ => onChunk c) s
  | StreamComplete mid =>
      with_callbacks (fun cl s => closeStream (onComplete cl mid s)) s
  | StreamError err =>
      with_callbacks (fun cl s => closeStream (onError cl err s)) s
  | StreamThrow err =>
      with_callbacks (fun _ s => closeStream (onThrow err s)) s
  | MutationSuccess data => settleMutation (onSuccess data s)
  | MutationFailure => settleMutation s
  end.

Fixpoint run (evs : list Event) (s : State) : State :=
  match evs with
  | [] => s
  | e :: evs' => run evs' (step e s)
  end.

(** [disabled] of the input (line 450) and of the submit button
    (line 464). *)
Definition inputDisabled (s : State) : bool :=
  isPending s || isStreaming s.

Definition submitDisabled (s : State) : bool :=
  isPending s || isStreaming s || negb (JS.truthy (JS.trim (message s))).

(** When an event can happen: a disabled control fires nothing, an
    example is one of the three on the page, a stream event belongs to a
    stream call that is not over, a mutation result to a mutation that
    has not settled. *)
Definition enabled (e : Event) (s : State) : bool :=
  match e with
  | InputChange _ => negb (inputDisabled s)
  | ExampleClick q => existsb (String.eqb q) examples
  | ModelClick i => i <? length ModelSelector.models
  | SubmitClick => negb (submitDisabled s)
  | EnterKey => negb (inputDisabled s)
  | RouteChange _ => true
  | AuthChange _ => true
  | StreamMetadata _ | StreamChunk _ | StreamComplete _
  | StreamError _ | StreamThrow _ => 0 <? openStreams s
  | MutationSuccess _ | MutationFailure => 0 <? pendingMutations s
  end.

(** Runs of the page in which every event can happen when it does. *)
Fixpoint valid (evs : list Event) (s : State) : bool :=
  match evs with
  | [] => true
  | e :: evs' => enabled e s && valid evs' (step e s)
  end.

(** The bubble under the messages (lines 417-436). *)
Inductive Bubble :=
| NoBubble
| Dots
| StreamingText (text : string).

Definition bubble (s : State) : Bubble :=
  if isPending s || isStreaming s then
    if isStreaming s && JS.truthy (streamingMessage s)
    then StreamingText (streamingMessage s)
    else Dots
  else NoBubble.

(** Projections of the effect log. *)
Definition syncSends (l : list Effect) : list ChatApi.Request :=
  omap (fun e => match e with Mutate r => Some r | _ => None end) l.


Definition alerts (l : list Effect) : list string :=
  omap (fun e => match e with Alert t => Some t | _ => None end) l.

Definition requests (l : list Effect) : list ChatApi.Request :=
  omap (fun e => match e with
                 | Mutate r | SendMessageStream r => Some r
                 | _ => None end) l.

(** *** Vocabulary of the properties *)

(** The ids the selector offers. *)
Definition modelIds : list string :=
  map ModelSelector.id ModelSelector.models.

(** A send is accepted: the guard of [handleSend] lets it through and a
    user is signed in. *)
Definition accepted (s : State) : bool :=
  JS.truthy (JS.trim (message s)) && negb (isStreaming s)
  && match currentUser s with Some _ => true | None => false end.

(** The variables an accepted [handleSend] captures. *)
Definition closureOf (s : State) : Closure :=
  {| cl_conversationId := conversationId s;
     cl_currentMessage := message s;
     cl_selectedModel := selectedModel s |}.



(** Requests on their way: stream calls not over, mutations not
    settled. *)
Definition inFlight (s : State) : nat := openStreams s + pendingMutations s.

(** A closure whose message passed the guard and whose model is one the
    selector offers. *)
Definition goodClosure (cl : Closure) : Prop :=
  JS.truthy (JS.trim (cl_currentMessage cl)) = true
  /\ In (cl_selectedModel cl) modelIds.

(** A payload built by [handleSend] from such a closure. *)
Definition wellFormed (r : ChatApi.Request) : Prop :=
  exists cl, goodClosure cl /\ r = streamRequest cl.

(** What every run keeps true of the selected model, of the registered
    callbacks and of the payloads sent so far. *)
Definition payloadInvariant (s : State) : Prop :=
  In (selectedModel s) modelIds
  /\ (forall cl, callbacks s = Some cl -> goodClosure cl)
  /\ Forall wellFormed (requests (effects s)).

(** What every run driven through the page's controls keeps true of the
    requests on their way. *)
Definition oneAtATime (s : State) : Prop :=
  (openStreams s = 0 /\ isStreaming s = false /\ pendingMutations s <= 1)
  \/ (openStreams s = 1 /\ isStreaming s = true /\ pendingMutations s = 0).

(** The chunks of a stream put end to end, in the order of arrival. *)
Definition concatenation (chunks : list string) : string :=
  fold_right String.append "" chunks.

(** A signed-in user on a new conversation with a question typed in. *)
Definition ready : State :=
  setMessage "Explain random forests algorithm"
    (initial None (Some "user-1")).

Definition boom : JS.Error := {| JS.message := "network error" |}.

(** The same page with only blanks typed in. *)
Definition blank : State :=
  setMessage "   " (initial None (Some "user-1")).

(** A payload with a message of 10,001 characters. *)
Definition oversized : ChatApi.Request :=
  streamRequest {| cl_conversationId := None;
                   cl_currentMessage := JS.repeat "a" (Z.to_nat 10001);
                   cl_selectedModel := "auto" |}.

(** The stream failed, its fallback is pending, and an example question
    was clicked meanwhile. *)
Definition fallbackPending : list Event :=
  [InputChange "hi"; SubmitClick; StreamError boom;
   ExampleClick "Explain random forests algorithm"].

End ChatPage.

(* ===================================================================== *)
(** ** The backend request pipeline

    The sources hold the client and the project's documents; the Python
    backend they describe ([app/core/rate_limit.py],
    [app/core/text_cleaner.py], [app/services/router.py],
    [app/schemas/chat.py], [app/api/v1/chat.py]) is modelled below from
    its specification. *)
(* ===================================================================== *)

Module RateLimiter.

(** Modelled from the spec: [app/core/rate_limit.py] is missing; this is
    the result of [check(key, limit, window_duration)], namely
    [{allowed, remaining, reset_at}]. *)
Record Verdict := { allowed : bool; remaining : Z; reset_at : Z }.

(** Modelled from the spec: the missing backing store, a counter per
    [(identity, window_start)], created on first use of a key. *)
Abbreviation Store := (gmap (string * Z) Z).

(** Modelled from the spec: the missing window arithmetic; the start of
    the fixed tumbling window that holds [now]. *)
Definition window_start (now window : Z) : Z := (now - now mod window)%Z.

(** Modelled from the spec: the store's missing atomic increment, one
    operation that returns the new count. *)
Definition incr (k : string * Z) (st : Store) : Z * Store :=
  let n := (default 0%Z (st !! k) + 1)%Z in (n, <[k := n]> st).

(** Modelled from the spec: the missing [check] of
    [app/core/rate_limit.py], with the time of the request passed in. *)
Definition check (key : string) (limit window now : Z) (st : Store)
    : Verdict * Store :=
  let ws := window_start now window in
  let '(n, st') := incr (key, ws) st in
  ({| allowed := (n <=? limit)%Z;
      remaining := Z.max 0 (limit - n);
      reset_at := (ws + window)%Z |}, st').

(** Modelled from the spec: the missing fail-open policy; with the store
    unavailable the request is allowed and the event recorded. *)
Definition check_available (key : string) (limit window now : Z)
    (st : option Store) : Verdict * option Store * bool :=
  match st with
  | Some st0 =>
      let '(v, st') := check key limit window now st0 in (v, Some st', false)
  | None =>
      ({| allowed := true; remaining := limit;
          reset_at := (window_start now window + window)%Z |}, None, true)
  end.

(** Modelled from the spec: the missing rejection, a [RateLimitExceeded]
    condition with a retry-after hint derived from [reset_at]. *)
Inductive Rejection := RateLimitExceeded (retry_after : Z).

Definition enforce (now : Z) (v : Verdict) : option Rejection :=
  if allowed v then None else Some (RateLimitExceeded (reset_at v - now)).

(** Requests of one key arriving at the given times, in order. *)
Fixpoint serve (key : string) (limit window : Z) (times : list Z)
    (st : Store) : list (option Rejection) * Store :=
  match times with
  | [] => ([], st)
  | now :: rest =>
      let '(v, st1) := check key limit window now st in
      let '(vs, st2) := serve key limit window rest st1 in
      (enforce now v :: vs, st2)
  end.

(** What a counter standing at [c] lets through of the requests of one
    window that ends at [reset]. *)
Fixpoint predicted (limit reset c : Z) (times : list Z)
    : list (option Rejection) :=
  match times with
  | [] => []
  | now :: rest =>
      (if (c + 1 <=? limit)%Z then None
       else Some (RateLimitExceeded (reset - now)))
      :: predicted limit reset (c + 1) rest
  end.

End RateLimiter.

Module Router.

(** Modelled from the spec: [app/services/router.py] is missing; these
    are the fixed set of specialist endpoints and the decision record. *)
Inductive Specialist := TheorySpecialist | CodeSpecialist | MathSpecialist.

Inductive Strategy := Explicit | Automatic.

Record Decision := {
  endpoint : Specialist;
  strategy : Strategy;
  confidence : Q;
  reasons : list string
}.

(** Modelled from the spec: the missing reading of the request's model
    selector; the named specialists, anything else (["auto"]) is none. *)
Definition specialist_of_name (name : string) : option Specialist :=
  if String.eqb name "theory-specialist" then Some TheorySpecialist
  else if String.eqb name "code-specialist" then Some CodeSpecialist
  else if String.eqb name "math-specialist" then Some MathSpecialist
  else None.

Definition name_of_specialist (s : Specialist) : string :=
  match s with
  | TheorySpecialist => "theory-specialist"
  | CodeSpecialist => "code-specialist"
  | MathSpecialist => "math-specialist"
  end.

Section Heuristic.

(** The spec names kinds of tokens and the shape of the confidence,
    not their values: they are parameters here. *)
Variables code_tokens math_tokens : list string.
Variable score : nat -> Q.
Variable cap : Q.

Definition matches (tokens : list string) (text : string) : bool :=
  existsb (fun tok => Text.occurs tok text) tokens.

(** Modelled from the spec: the missing [decide] of
    [app/services/router.py], rules 1 to 4 with the fixed precedence
    code > math > theory. *)
Definition decide (explicit_model : option string) (text : string)
    : Decision :=
  match explicit_model ≫= specialist_of_name with
  | Some s =>
      {| endpoint := s; strategy := Explicit; confidence := 1;
         reasons := ["user override"] |}
  | None =>
      let code := matches code_tokens text in
      let math := matches math_tokens text in
      let n := (if code then 1 else 0) + (if math then 1 else 0) in
      {| endpoint := if code then CodeSpecialist
                     else if math then MathSpecialist
                     else TheorySpecialist;
         strategy := Automatic;
         confidence := if Qle_bool (score n) cap then score n else cap;
         reasons := (if code then ["code"] else [])
                    ++ (if math then ["math"] else []) |}
  end.

End Heuristic.

End Router.

Module ResponseCleaner.

Section Cleaner.

(** The spec speaks of known start and end tokens and of markdown
    artifacts without listing them: they are parameters here. *)
Variables think_open think_close : string.
Variable artifacts : list string.

(** Modelled from the spec: [app/core/text_cleaner.py] is missing;
    this pass strips every segment delimited by the start and the end
    token.  [inside] tells whether the scan is within a segment,
    [skip] how many characters of a token are still to be passed
    over. *)
Fixpoint strip_thinking (inside : bool) (skip : nat) (s : string)
    : string :=
  match s with
  | EmptyString => EmptyString
  | String c t =>
      match skip with
      | S k => strip_thinking inside k t
      | O =>
          if inside then
            if String.prefix think_close s
            then strip_thinking false (String.length think_close - 1) t
            else strip_thinking true 0 t
          else if String.prefix think_open s
                  && Text.occurs think_close
                       (Text.skip (String.length think_open) s)
          then strip_thinking true (String.length think_open - 1) t
          else String c (strip_thinking false 0 t)
      end
  end.

(** The first non-empty artifact [s] starts with. *)
Fixpoint artifact_at (tokens : list string) (s : string) : option string :=
  match tokens with
  | [] => None
  | tok :: rest =>
      if JS.truthy tok && String.prefix tok s then Some tok
      else artifact_at rest s
  end.

(** Modelled from the spec: the missing pass of
    [app/core/text_cleaner.py] that trims the markdown artifacts. *)
Fixpoint trim_markdown (skip : nat) (s : string) : string :=
  match s with
  | EmptyString => EmptyString
  | String c t =>
      match skip with
      | S k => trim_markdown k t
      | O =>
          match artifact_at artifacts s with
          | Some tok => trim_markdown (String.length tok - 1) t
          | None => String c (trim_markdown 0 t)
          end
      end
  end.

(** A run of white space keeps its first character. *)
Fixpoint collapse (after_space : bool) (s : string) : string :=
  match s with
  | EmptyString => EmptyString
  | String c t =>
      if Ascii.is_space c then
        if after_space then collapse true t
        else String c (collapse true t)
      else String c (collapse false t)
  end.

Fixpoint lstrip (s : string) : string :=
  match s with
  | EmptyString => EmptyString
  | String c t => if Ascii.is_space c then lstrip t else s
  end.

Fixpoint rstrip (s : string) : string :=
  match s with
  | EmptyString => EmptyString
  | String c t =>
      match rstrip t with
      | EmptyString =>
          if Ascii.is_space c then EmptyString else String c EmptyString
      | t' => String c t'
      end
  end.

(** Modelled from the spec: the missing pass of
    [app/core/text_cleaner.py] that normalizes white space. *)
Definition normalize_whitespace (s : string) : string :=
  rstrip (lstrip (collapse false s)).

(** Modelled from the spec: the missing [clean] of
    [app/core/text_cleaner.py]; the three passes the spec names, once
    each and in the order it names them. *)
Definition clean (raw_text : string) : string :=
  normalize_whitespace (trim_markdown 0 (strip_thinking false 0 raw_text)).

End Cleaner.

(** A pass only deletes: its result is no longer than its argument, and
    as long only when nothing was deleted. *)
Definition deletes_only (f : string -> string) : Prop :=
  forall s, String.length (f s) <= String.length s
            /\ (String.length (f s) = String.length s -> f s = s).

End ResponseCleaner.

Module Schema.

(** Modelled from the spec: [app/schemas/chat.py] is missing; this is
    the data model's ChatRequest, immutable once constructed. *)
Record ChatRequest := {
  conversation : option string;
  text : string;
  model : string;
  temperature : Q;
  max_tokens : Z
}.

Definition text_ok (m : string) : bool :=
  (1 <=? Z.of_nat (String.length m))%Z
  && (Z.of_nat (String.length m) <=? 10000)%Z.

Definition temperature_ok (t : Q) : bool :=
  Qle_bool 0 t && Qle_bool t 2.

Definition max_tokens_ok (n : Z) : bool :=
  (1 <=? n)%Z && (n <=? 8192)%Z.

(** Modelled from the spec: the missing validation at the boundary;
    message text of 1 to 10,000 characters, temperature in [0.0, 2.0],
    max_tokens in [1, 8192], or no ChatRequest at all. *)
Definition construct (r : ChatApi.Request) : option ChatRequest :=
  if text_ok (ChatApi.message r)
     && temperature_ok (ChatApi.temperature (ChatApi.meta r))
     && max_tokens_ok (ChatApi.max_tokens (ChatApi.meta r))
  then Some {| conversation := ChatApi.conversation_id r;
               text := ChatApi.message r;
               model := ChatApi.model (ChatApi.meta r);
               temperature := ChatApi.temperature (ChatApi.meta r);
               max_tokens := ChatApi.max_tokens (ChatApi.meta r) |}
  else None.

End Schema.

Module ChatOrchestrator.

(** Modelled from the spec: the chat endpoint ([app/api/v1/chat.py]) is
    missing; these are the states of its state machine. *)
Inductive Stage :=
| Received | RateChecked | InputSafetyChecked | Routed | Inferred
| Cleaned | OutputSafetyChecked | Persisted | Responded.

Inductive Failure :=
| RateLimited (why : RateLimiter.Rejection)
| InputBlocked (labels : list string)
| InferenceFailed
| PersistFailed.

Inductive Direction := Input | Output.
Inductive Mode := Sync | Stream.
Inductive Role := User | Assistant.

Record Principal := { user_id : string; address : string }.

Record SafetyVerdict := {
  sv_allowed : bool;
  sv_labels : list string;
  sv_source : Direction
}.

Record InferenceResult := {
  raw_text : string;
  input_tokens : Z;
  output_tokens : Z;
  latency : Z
}.

Record Message := {
  role : Role;
  content : string;
  tokens : Z * Z;
  msg_latency : Z;
  safety_labels : list string;
  router_decision : option Router.Decision
}.

(** Calls made to the collaborators, in order. *)
Inductive Call :=
| CallRateStore (key : string)
| CallModeration (d : Direction)
| CallInference (m : Mode) (endpoint : Router.Specialist)
| CallSave (r : Role).

Record World := {
  store : option RateLimiter.Store;
  saved : list Message;
  calls : list Call;
  trail : list Stage;
  warnings : nat
}.

Record Response := {
  assistant_message : string;
  message_id : nat;
  decision : Router.Decision;
  safety_summary : list SafetyVerdict
}.

(** The pipeline runs in a state-and-failure monad over [World]. *)
Definition M (A : Type) : Type := World -> (Failure + A) * World.

Definition ret {A} (a : A) : M A := fun w => (inr a, w).

Definition bind {A B} (m : M A) (k : A -> M B) : M B :=
  fun w => match m w with
           | (inl f, w1) => (inl f, w1)
           | (inr a, w1) => k a w1
           end.

Definition fail {A} (f : Failure) : M A := fun w => (inl f, w).

Definition enter (st : Stage) : M unit :=
  fun w => (inr tt, {| store := store w; saved := saved w; calls := calls w;
                       trail := trail w ++ [st]; warnings := warnings w |}).

Definition call (c : Call) : M unit :=
  fun w => (inr tt, {| store := store w; saved := saved w;
                       calls := calls w ++ [c];
                       trail := trail w; warnings := warnings w |}).

Definition warn : M unit :=
  fun w => (inr tt, {| store := store w; saved := saved w; calls := calls w;
                       trail := trail w; warnings := S (warnings w) |}).

Definition save (m : Message) : M nat :=
  fun w => (inr (length (saved w)),
            {| store := store w; saved := saved w ++ [m]; calls := calls w;
               trail := trail w; warnings := warnings w |}).

Notation "x <- m ;; k" := (bind m (fun x => k))
  (at level 100, m at next level, right associativity).
Notation "m ;;; k" := (bind m (fun _ => k))
  (at level 100, right associativity).

Section Pipeline.

(** The collaborators and the configuration. *)
Variables user_limit ip_limit window : Z.
Variable moderation : Direction -> string -> option (list string).
Variable fail_open : bool.
Variable remote : Mode -> Router.Specialist -> string
                  -> option InferenceResult.
Variable is_identity_question : string -> bool.
Variable identity_response : Router.Specialist -> string.
Variable persistence_up : bool.
Variable refusal : string.
Variables code_tokens math_tokens : list string.
Variable score : nat -> Q.
Variable cap : Q.
Variables think_open think_close : string.
Variable artifacts : list string.

(** One rate-limit check against the store. *)
Definition limit (key : string) (max now : Z) : M RateLimiter.Verdict :=
  call (CallRateStore key) ;;;
  fun w =>
    let '(v, st, unavailable) :=
      RateLimiter.check_available key max window now (store w) in
    let w1 := {| store := st; saved := saved w; calls := calls w;
                 trail := trail w; warnings := warnings w |} in
    if unavailable then bind warn (fun _ => ret v) w1 else ret v w1.

(** Modelled from the spec: the missing rate-limit step; two checks
    per request, either rejection ends the pipeline. *)
Definition rate_check (p : Principal) (now : Z) : M unit :=
  vu <- limit (user_id p) user_limit now ;;
  vi <- limit (address p) ip_limit now ;;
  match RateLimiter.enforce now vu, RateLimiter.enforce now vi with
  | Some r, _ => fail (RateLimited r)
  | None, Some r => fail (RateLimited r)
  | None, None => enter RateChecked
  end.

(** Modelled from the spec: the missing [classify] of
    [app/services/safety.py]; any category blocks, an unavailable
    classifier follows the configured policy. *)
Definition classify (txt : string) (d : Direction) : M SafetyVerdict :=
  call (CallModeration d) ;;;
  match moderation d txt with
  | Some labels =>
      ret {| sv_allowed := match labels with [] => true | _ => false end;
             sv_labels := labels; sv_source := d |}
  | None =>
      warn ;;;
      ret {| sv_allowed := fail_open; sv_labels := []; sv_source := d |}
  end.

Definition input_safety (txt : string) : M SafetyVerdict :=
  v <- classify txt Input ;;
  if sv_allowed v then enter InputSafetyChecked ;;; ret v
  else fail (InputBlocked (sv_labels v)).

Definition route (req : Schema.ChatRequest) : M Router.Decision :=
  enter Routed ;;;
  ret (Router.decide code_tokens math_tokens score cap
         (Some (Schema.model req)) (Schema.text req)).

(** Modelled from the spec: the missing [invoke] and [stream] of
    [app/services/llm_client.py], one attempt each, with the identity
    short-circuit. *)
Definition attempt (m : Mode) (e : Router.Specialist) (txt : string)
    : M (option InferenceResult) :=
  if is_identity_question txt then
    ret (Some {| raw_text := identity_response e; input_tokens := 0;
                 output_tokens := 0; latency := 0 |})
  else call (CallInference m e) ;;; ret (remote m e txt).

(** Modelled from the spec: the missing inference step; a failed
    stream falls back once to the synchronous call. *)
Definition infer (streaming : bool) (e : Router.Specialist)
    (txt : string) : M InferenceResult :=
  first <- attempt (if streaming then Stream else Sync) e txt ;;
  match first with
  | Some r => enter Inferred ;;; ret r
  | None =>
      if streaming then
        second <- attempt Sync e txt ;;
        match second with
        | Some r => enter Inferred ;;; ret r
        | None => fail InferenceFailed
        end
      else fail InferenceFailed
  end.

(** The request fails the rate-limit check: one of the two verdicts
    on the store refuses it. *)
Definition rate_refused (p : Principal) (now : Z)
    (st : option RateLimiter.Store) : bool :=
  let '(vu, st1, _) :=
    RateLimiter.check_available (user_id p) user_limit window now st in
  let '(vi, _, _) :=
    RateLimiter.check_available (address p) ip_limit window now st1 in
  negb (RateLimiter.allowed vu && RateLimiter.allowed vi).

(** The request fails the input-side safety check: the moderation
    names a category, or it is down and the policy is fail-closed. *)
Definition input_refused (txt : string) : bool :=
  match moderation Input txt with
  | Some [] => false
  | Some (_ :: _) => true
  | None => negb fail_open
  end.

Definition persist (m : Message) : M nat :=
  call (CallSave (role m)) ;;;
  if persistence_up then save m else fail PersistFailed.

(** Modelled from the spec: the missing [send] of the chat endpoint,
    the steps in their fixed order. *)
Definition send (p : Principal) (req : Schema.ChatRequest) (now : Z)
    (streaming : bool) : M Response :=
  enter Received ;;;
  rate_check p now ;;;
  vin <- input_safety (Schema.text req) ;;
  d <- route req ;;
  r <- infer streaming (Router.endpoint d) (Schema.text req) ;;
  enter Cleaned ;;;
  let cleaned :=
    ResponseCleaner.clean think_open think_close artifacts (raw_text r) in
  vout <- classify cleaned Output ;;
  enter OutputSafetyChecked ;;;
  let shown := if sv_allowed vout then cleaned else refusal in
  persist {| role := User; content := Schema.text req; tokens := (0, 0)%Z;
             msg_latency := 0; safety_labels := sv_labels vin;
             router_decision := None |} ;;;
  mid <- persist {| role := Assistant; content := shown;
                    tokens := (input_tokens r, output_tokens r);
                    msg_latency := latency r;
                    safety_labels := sv_labels vout;
                    router_decision := Some d |} ;;
  enter Persisted ;;;
  enter Responded ;;;
  ret {| assistant_message := shown; message_id := mid; decision := d;
         safety_summary := [vin; vout] |}.

End Pipeline.

Definition inference_calls (l : list Call) : list Call :=
  List.filter
    (fun c => match c with CallInference _ _ => true | _ => false end) l.

Definition save_calls (l : list Call) : list Call :=
  List.filter (fun c => match c with CallSave _ => true | _ => false end) l.

(** A computation that reaches neither the model nor the persistence. *)
Definition quiet {A} (m : M A) : Prop :=
  forall w,
    inference_calls (calls (snd (m w))) = inference_calls (calls w)
    /\ save_calls (calls (snd (m w))) = save_calls (calls w)
    /\ saved (snd (m w)) = saved w.

Definition stopped_early (f : Failure) : bool :=
  match f with
  | RateLimited _ | InputBlocked _ => true
  | InferenceFailed | PersistFailed => false
  end.

(** A moderation that objects to one word, a remote model that echoes,
    and a world whose user key has used up its minute. *)
Definition strict_moderation (d : Direction) (txt : string)
    : option (list string) :=
  if Text.occurs "malware" txt then Some ["illicit"] else Some [].

Definition echo (m : Mode) (e : Router.Specialist) (txt : string)
    : option InferenceResult :=
  Some {| raw_text := txt; input_tokens := 1; output_tokens := 1;
          latency := 1 |}.

Definition fresh : World :=
  {| store := Some ∅; saved := []; calls := []; trail := []; warnings := 0 |}.

Definition alice : Principal :=
  {| user_id := "alice"; address := "10.0.0.7" |}.

Definition ask (txt : string) : Schema.ChatRequest :=
  {| Schema.conversation := None; Schema.text := txt;
     Schema.model := "auto"; Schema.temperature := 7 # 10;
     Schema.max_tokens := 2048 |}.

(** The pipeline with 60 requests per minute and user, 10 per minute
    and address. *)
Definition demo (txt : string) (now : Z) (streaming : bool) : M Response :=
  send 60 10 60 strict_moderation true echo (fun _ => false)
    (fun _ => "") true "I cannot help with that." ["def"; "bug"]
    ["calculate"] (fun n => (Z.of_nat n # 2)%Q) (9 # 10)
    "<think>" "</think>" ["**"] alice (ask txt) now streaming.

End ChatOrchestrator.

(* ===================================================================== *)
(** ** More of the client: runs of the chat page, its sidebar, the model
    menu, the sign-up and sign-in pages, the route guard *)
(* ===================================================================== *)

Module PageRuns.

Import ChatPage.

(** The stream events that end a stream call. *)
Definition isTerminal (e : Event) : bool :=
  match e with
  | StreamComplete _ | StreamError _ | StreamThrow _ => true
  | _ => false
  end.


Definition navigations (l : list Effect) : list string :=
  omap (fun e => match e with Navigate p => Some p | _ => None end) l.

Definition invalidations (l : list Effect) : list QueryKey :=
  omap (fun e => match e with InvalidateQueries k => Some k | _ => None end) l.

(** Nothing on its way, the input usable, no bubble. *)
Definition idle (s : State) : Prop :=
  inFlight s = 0 /\ isStreaming s = false /\ inputDisabled s = false
  /\ bubble s = NoBubble.

(** The texts the page alerts with. *)
Definition alertShape (t : string) : Prop :=
  t = "Please log in to send messages"
  \/ exists detail, detail <> "" /\ t = "Error: " +:+ detail.

(** What every run keeps true of the alerts so far. *)
Definition alertInvariant (s : State) : Prop :=
  Forall alertShape (alerts (effects s)).


(** An open stream call has its callbacks registered. *)
Definition wired (s : State) : Prop :=
  openStreams s = 0 \/ callbacks s <> None.

(** A stream call was made and has not ended. *)
Definition streaming (cl : Closure) (s : State) : Prop :=
  isStreaming s = true /\ callbacks s = Some cl.

(** A page on a new conversation whose stream announced a conversation
    id. *)
Definition announced : ChatApi.Metadata :=
  {| ChatApi.md_conversation_id := "c-1" |}.

End PageRuns.

Module Sidebar.

(** Calls of the sidebar that leave the page's own effects:
    [conversationApi.create], [conversationApi.delete], [confirm]. *)
Inductive Call :=
| CreateConversation (title : string)
| DeleteConversation (id : string)
| Confirm (text : string).

Record State := {
  page : ChatPage.State;
  calls : list Call
}.

Definition onPage (f : ChatPage.State -> ChatPage.State) (st : State)
    : State :=
  {| page := f (page st); calls := calls st |}.

Definition record (c : Call) (st : State) : State :=
  {| page := page st; calls := calls st ++ [c] |}.

(** [navigate('/app')], with or without [replace]: the effect, and the
    route parameter gone. *)
Definition navigateHome (s : ChatPage.State) : ChatPage.State :=
  ChatPage.setRoute None (ChatPage.emit (ChatPage.Navigate "/app") s).

(** [handleNewChat] (lines 189-191) with the [mutationFn] of
    [createConversationMutation] (line 64). *)
Definition handleNewChat (st : State) : State :=
  record (CreateConversation "New Data Science Query") st.

(** [onSuccess] and [onError] of [createConversationMutation]
    (lines 65-72). *)
Definition createSuccess (id : string) (s : ChatPage.State)
    : ChatPage.State :=
  ChatPage.navigateToConversation id
    (ChatPage.emit (ChatPage.InvalidateQueries ChatPage.QConversations) s).

Definition createError (s : ChatPage.State) : ChatPage.State :=
  ChatPage.emit
    (ChatPage.Alert "Failed to create new conversation. Please try again.") s.

(** [handleDeleteConversation] (lines 85-90); [confirmed] is the answer
    to the [confirm] dialog. *)
Definition handleDeleteConversation (convId : string) (confirmed : bool)
    (st : State) : State :=
  let st1 :=
    record (Confirm "Are you sure you want to delete this conversation?") st in
  if confirmed then record (DeleteConversation convId) st1 else st1.

(** [onSuccess] of [deleteConversationMutation] (lines 77-82). *)
Definition deleteSuccess (s : ChatPage.State) : ChatPage.State :=
  let s1 :=
    ChatPage.emit (ChatPage.InvalidateQueries ChatPage.QConversations) s in
  if JS.truthy_opt (ChatPage.conversationId s1) then navigateHome s1 else s1.

(** The effect on [conversationError] (lines 45-50), run when the
    conversation query fails. *)
Definition conversationNotFound (s : ChatPage.State) : ChatPage.State :=
  if JS.truthy_opt (ChatPage.conversationId s) then navigateHome s else s.

Inductive Event :=
| Page (e : ChatPage.Event)
| NewChatClick
| CreateSuccess (id : string)
| CreateFailure
| DeleteClick (convId : string) (confirmed : bool)
| DeleteSuccess
| ConversationClick (id : string)
| ConversationError.

Definition step (e : Event) (st : State) : State :=
  match e with
  | Page e' => onPage (ChatPage.step e') st
  | NewChatClick => handleNewChat st
  | CreateSuccess id => onPage (createSuccess id) st
  | CreateFailure => onPage createError st
  | DeleteClick convId confirmed => handleDeleteConversation convId confirmed st
  | DeleteSuccess => onPage deleteSuccess st
  | ConversationClick id => onPage (ChatPage.navigateToConversation id) st
  | ConversationError => onPage conversationNotFound st
  end.

Fixpoint run (evs : list Event) (st : State) : State :=
  match evs with
  | [] => st
  | e :: evs' => run evs' (step e st)
  end.

Definition deletes (l : list Call) : list string :=
  omap (fun c => match c with DeleteConversation id => Some id | _ => None end) l.

Definition confirmedDeletes (evs : list Event) : list string :=
  omap (fun e => match e with DeleteClick id true => Some id | _ => None end)
    evs.

(** The payload a send from conversation [conv] carries for message [m]
    and model [model]. *)
Definition payloadFor (conv : option string) (m model : string)
    : ChatApi.Request :=
  ChatPage.streamRequest
    {| ChatPage.cl_conversationId := conv;
       ChatPage.cl_currentMessage := m;
       ChatPage.cl_selectedModel := model |}.

(** The chat page of a signed-in user inside a conversation, no call
    made yet. *)
Definition opened : State :=
  {| page := ChatPage.initial (Some "c-7") (Some "user-1"); calls := [] |}.

End Sidebar.

Module ModelMenu.

(** [ModelSelector.tsx], lines 32-82: the entry whose label the button
    shows is [ModelSelector.selectedModel]; these are the entries the open
    menu marks, by [value === model.id]. *)
Definition highlighted (value : string) : list bool :=
  map (fun m => String.eqb value (ModelSelector.id m)) ModelSelector.models.

(** The component's state hook and the ids it has passed to
    [onChange]. *)
Record State := { isOpen : bool; reported : list string }.

Inductive Click :=
| ButtonClick
| BackdropClick
| EntryClick (entry : nat).

(** The backdrop and the entries exist only while the menu is open. *)
Definition click (c : Click) (s : State) : State :=
  match c with
  | ButtonClick => {| isOpen := negb (isOpen s); reported := reported s |}
  | BackdropClick =>
      if isOpen s then {| isOpen := false; reported := reported s |} else s
  | EntryClick i =>
      if isOpen s then
        match nth_error ModelSelector.models i with
        | Some m =>
            {| isOpen := false;
               reported := reported s ++ [ModelSelector.id m] |}
        | None => s
        end
      else s
  end.

Fixpoint clicks (cs : list Click) (s : State) : State :=
  match cs with
  | [] => s
  | c :: cs' => clicks cs' (click c s)
  end.

Definition closed : State := {| isOpen := false; reported := [] |}.

Definition isButton (c : Click) : bool :=
  match c with ButtonClick => true | _ => false end.

(** Menus open ([1]) or not ([0]). *)
Definition opened (s : State) : nat := if isOpen s then 1 else 0.

End ModelMenu.

Module Auth.

(** Calls on the [auth] object of [lib/firebase], on the Firebase SDK, and
    navigation, as the sign-up and sign-in pages make them. *)
Inductive Effect :=
| AuthCreateUser (email password : string) (displayName : option string)
| FirebaseCreateUser (email password : string)
| AuthSignIn (email password : string)
| FirebaseSignIn (email password : string)
| GooglePopup
| Navigate (path : string).

(** The flags of [lib/firebase] and how the awaited steps of one handler
    end: the dynamic import of the SDK and the call itself, each resolved
    ([None]) or rejected with an error. *)
Record Env := {
  isDevMode : bool;
  isBackendAuth : bool;
  sdkImport : option JS.Error;
  call : option JS.Error
}.

Definition navigations (l : list Effect) : list string :=
  omap (fun e => match e with Navigate p => Some p | _ => None end) l.

Definition isCall (e : Effect) : bool :=
  match e with Navigate _ => false | _ => true end.

End Auth.

Module SignupPage.

Record State := {
  email : string;
  password : string;
  displayName : string;
  loading : bool;
  error : string;
  effects : list Auth.Effect
}.

Definition setLoading (v : bool) (s : State) : State :=
  {| email := email s; password := password s; displayName := displayName s;
     loading := v; error := error s; effects := effects s |}.

Definition setError (v : string) (s : State) : State :=
  {| email := email s; password := password s; displayName := displayName s;
     loading := loading s; error := v; effects := effects s |}.

Definition setDisplayName (v : string) (s : State) : State :=
  {| email := email s; password := password s; displayName := v;
     loading := loading s; error := error s; effects := effects s |}.

Definition emit (e : Auth.Effect) (s : State) : State :=
  {| email := email s; password := password s; displayName := displayName s;
     loading := loading s; error := error s; effects := effects s ++ [e] |}.

(** The end of [try]/[catch]/[finally]: navigate on success, show the
    error's message or the fallback text on failure, and stop loading
    either way. *)
Definition settle (fallback : string) (outcome : option JS.Error)
    (s : State) : State :=
  setLoading false
    match outcome with
    | None => emit (Auth.Navigate "/app") s
    | Some err => setError (JS.or_else (JS.message err) fallback) s
    end.

(** [handleEmailSignup] (lines 17-54). *)
Definition handleEmailSignup (env : Auth.Env) (s : State) : State :=
  let s1 := setError "" (setLoading true s) in
  if negb (JS.truthy (JS.trim (email s1))) then
    setLoading false (setError "Please enter your email address" s1)
  else if negb (JS.truthy (JS.trim (password s1))) then
    setLoading false (setError "Please enter a password" s1)
  else if String.length (password s1) <? 6 then
    setLoading false (setError "Password must be at least 6 characters" s1)
  else if Auth.isDevMode env || Auth.isBackendAuth env then
    settle "Failed to create account" (Auth.call env)
      (emit (Auth.AuthCreateUser (JS.trim (email s1)) (password s1)
               (JS.or_undefined (Some (JS.trim (displayName s1))))) s1)
  else
    match Auth.sdkImport env with
    | Some err => settle "Failed to create account" (Some err) s1
    | None =>
        settle "Failed to create account" (Auth.call env)
          (emit (Auth.FirebaseCreateUser (JS.trim (email s1)) (password s1)) s1)
    end.

(** [handleGoogleSignup] (lines 56-77). *)
Definition handleGoogleSignup (env : Auth.Env) (s : State) : State :=
  let s1 := setError "" (setLoading true s) in
  if Auth.isDevMode env || Auth.isBackendAuth env then
    setLoading false
      (setLoading false
         (setError
            "Google sign-in is not available. Please use email/password sign-up."
            s1))
  else
    match Auth.sdkImport env with
    | Some err => settle "Failed to sign up with Google" (Some err) s1
    | None =>
        settle "Failed to sign up with Google" (Auth.call env)
          (emit Auth.GooglePopup s1)
    end.

(** The inputs pass the checks of [handleEmailSignup]. *)
Definition inputsOk (s : State) : bool :=
  JS.truthy (JS.trim (email s)) && JS.truthy (JS.trim (password s))
  && (6 <=? String.length (password s)).

(** The form as first rendered, then filled in. *)
Definition filled (e p d : string) : State :=
  {| email := e; password := p; displayName := d; loading := false;
     error := ""; effects := [] |}.

End SignupPage.

Module LoginPage.

Record State := {
  email : string;
  password : string;
  loading : bool;
  error : string;
  effects : list Auth.Effect
}.

Definition setLoading (v : bool) (s : State) : State :=
  {| email := email s; password := password s; loading := v;
     error := error s; effects := effects s |}.

Definition setError (v : string) (s : State) : State :=
  {| email := email s; password := password s; loading := loading s;
     error := v; effects := effects s |}.

Definition emit (e : Auth.Effect) (s : State) : State :=
  {| email := email s; password := password s; loading := loading s;
     error := error s; effects := effects s ++ [e] |}.

Definition settle (fallback : string) (outcome : option JS.Error)
    (s : State) : State :=
  setLoading false
    match outcome with
    | None => emit (Auth.Navigate "/app") s
    | Some err => setError (JS.or_else (JS.message err) fallback) s
    end.

(** [handleEmailLogin] of the sign-in page, which follows the sign-up
    page in [SignupPage.tsx] (lines 230-260). *)
Definition handleEmailLogin (env : Auth.Env) (s : State) : State :=
  let s1 := setError "" (setLoading true s) in
  if negb (JS.truthy (JS.trim (email s1))) then
    setLoading false (setError "Please enter your email address" s1)
  else if negb (JS.truthy (JS.trim (password s1))) then
    setLoading false (setError "Please enter your password" s1)
  else if Auth.isDevMode env then
    settle "Failed to sign in" (Auth.call env)
      (emit (Auth.AuthSignIn (JS.trim (email s1)) (password s1)) s1)
  else
    match Auth.sdkImport env with
    | Some err => settle "Failed to sign in" (Some err) s1
    | None =>
        settle "Failed to sign in" (Auth.call env)
          (emit (Auth.FirebaseSignIn (JS.trim (email s1)) (password s1)) s1)
    end.

(** [handleGoogleLogin] of the sign-in page (lines 262-283). *)
Definition handleGoogleLogin (env : Auth.Env) (s : State) : State :=
  let s1 := setError "" (setLoading true s) in
  if Auth.isDevMode env then
    setLoading false
      (setLoading false
         (setError
            "Google sign-in requires Firebase configuration. Please use email/password sign-in in development mode, or configure Firebase for production."
            s1))
  else
    match Auth.sdkImport env with
    | Some err => settle "Failed to sign in with Google" (Some err) s1
    | None =>
        settle "Failed to sign in with Google" (Auth.call env)
          (emit Auth.GooglePopup s1)
    end.

Definition filled (e p : string) : State :=
  {| email := e; password := p; loading := false; error := "";
     effects := [] |}.

End LoginPage.

Module App.

(** The state hooks of [ProtectedRoute] ([App.tsx], lines 11-45). *)
Record Guard := { user : option string; loading : bool }.

Definition mounted : Guard := {| user := None; loading := true |}.

(** The callback given to [auth.onAuthStateChanged]. *)
Definition onAuthStateChanged (u : option string) (g : Guard) : Guard :=
  {| user := u; loading := false |}.

Inductive View :=
| LoadingSpinner
| NavigateTo (path : string) (replace : bool)
| Children.

Definition ProtectedRoute (g : Guard) : View :=
  if loading g then LoadingSpinner
  else match user g with
       | None => NavigateTo "/login" true
       | Some _ => Children
       end.

Fixpoint authStates (us : list (option string)) (g : Guard) : Guard :=
  match us with
  | [] => g
  | u :: us' => authStates us' (onAuthStateChanged u g)
  end.

End App.

(* ===================================================================== *)
(** * Properties *)
(* ===================================================================== *)

(** ** Strings *)

Section TrimFacts.

Import JS.

Lemma trimStart_empty (s : string) :
  trimStart s = EmptyString <-> all_white_space s = true.
Proof.
  induction s as [|c t IH]; simpl; [tauto|].
  destruct (is_white_space c); simpl; [exact IH|].
  split; discriminate.
Qed.

Lemma trimEnd_empty (s : string) :
  trimEnd s = EmptyString <-> all_white_space s = true.
Proof.
  induction s as [|c t IH]; simpl; [tauto|].
  destruct (trimEnd t) eqn:Et.
  - destruct (is_white_space c); simpl.
    + split; intros _; [now apply IH|reflexivity].
    + split; discriminate.
  - split; [discriminate|].
    rewrite andb_true_iff. intros [_ H]. apply IH in H. discriminate.
Qed.

Lemma trimStart_white (s : string) :
  all_white_space (trimStart s) = true -> all_white_space s = true.
Proof.
  induction s as [|c t IH]; simpl; [tauto|].
  destruct (is_white_space c) eqn:Ec; simpl; [exact IH|].
  rewrite Ec. discriminate.
Qed.

(** [trim] leaves nothing exactly of the strings made of white space. *)
Lemma trim_empty (s : string) :
  trim s = EmptyString <-> all_white_space s = true.
Proof.
  unfold trim. rewrite trimEnd_empty. split.
  - apply trimStart_white.
  - intros H. apply trimStart_empty in H. now rewrite H.
Qed.

Lemma truthy_false (s : string) : truthy s = false <-> s = EmptyString.
Proof. destruct s; simpl; split; congruence. Qed.

Lemma blank_iff (s : string) :
  truthy (trim s) = false <-> all_white_space s = true.
Proof. rewrite truthy_false. apply trim_empty. Qed.

End TrimFacts.

(** ** The chat page *)

Section PageFacts.

Import ChatPage.

Lemma requests_snoc (l : list Effect) (e : Effect) :
  requests (l ++ [e]) =
  requests l ++ match e with
                | Mutate r | SendMessageStream r => [r]
                | _ => []
                end.
Proof. unfold requests. rewrite omap_app. now destruct e. Qed.



Lemma alerts_snoc (l : list Effect) (e : Effect) :
  alerts (l ++ [e]) = alerts l ++ match e with Alert t => [t] | _ => [] end.
Proof. unfold alerts. rewrite omap_app. now destruct e. Qed.

(** The two object literals of [handleSend] are the same payload. *)
Lemma fallback_same_payload (cl : Closure) :
  fallbackRequest cl = streamRequest cl.
Proof. reflexivity. Qed.

(** What an accepted [handleSend] leaves behind. *)
Lemma handleSend_accepted (s : State) :
  accepted s = true ->
  handleSend s =
  {| message := ""; selectedModel := selectedModel s;
     streamingMessage := ""; isStreaming := true;
     conversationId := conversationId s; currentUser := currentUser s;
     pendingMutations := pendingMutations s;
     openStreams := S (openStreams s);
     callbacks := Some (closureOf s);
     effects := effects s ++ [SendMessageStream (streamRequest (closureOf s))] |}.
Proof.
  unfold accepted, handleSend. intros H.
  apply andb_true_iff in H as [H Hu]. apply andb_true_iff in H as [Hm Hs].
  rewrite Hm. apply negb_true_iff in Hs. rewrite Hs. cbn.
  destruct (currentUser s) eqn:Eu; [|discriminate].
  cbv [setInFlight setCallbacks emit setStreamingMessage setIsStreaming
       setMessage]. cbn. now rewrite Eu.
Qed.

(** A refused [handleSend] changes nothing. *)
Lemma handleSend_refused (s : State) :
  JS.truthy (JS.trim (message s)) = false \/ isStreaming s = true ->
  handleSend s = s.
Proof.
  unfold handleSend. intros [H|H]; rewrite H; simpl; [reflexivity|].
  now rewrite orb_true_r.
Qed.

End PageFacts.

Section PageInvariants.

Import ChatPage.

Lemma model_entry_offered (i : nat) (m : ModelSelector.Entry) :
  nth_error ModelSelector.models i = Some m ->
  In (ModelSelector.id m) modelIds.
Proof.
  intros H. apply in_map. eapply nth_error_In. exact H.
Qed.

Lemma wellFormed_snoc (l : list Effect) (e : Effect) :
  Forall wellFormed (requests l) ->
  match e with
  | Mutate r | SendMessageStream r => wellFormed r
  | _ => True
  end ->
  Forall wellFormed (requests (l ++ [e])).
Proof.
  intros Hl He. rewrite requests_snoc. apply Forall_app. split; [exact Hl|].
  destruct e; auto.
Qed.

Lemma payloadInvariant_ext (s s' : State) :
  selectedModel s' = selectedModel s ->
  callbacks s' = callbacks s ->
  effects s' = effects s ->
  payloadInvariant s -> payloadInvariant s'.
Proof.
  unfold payloadInvariant. intros -> -> ->. tauto.
Qed.

Lemma payloadInvariant_emit (s s' : State) (e : Effect) :
  selectedModel s' = selectedModel s ->
  callbacks s' = callbacks s ->
  effects s' = effects s ++ [e] ->
  match e with
  | Mutate r | SendMessageStream r => wellFormed r
  | _ => True
  end ->
  payloadInvariant s -> payloadInvariant s'.
Proof.
  unfold payloadInvariant. intros -> -> -> He (Hm & Hc & Hr).
  split; [exact Hm|]. split; [exact Hc|]. now apply wellFormed_snoc.
Qed.

Lemma handleSend_payloadInvariant (s : State) :
  payloadInvariant s -> payloadInvariant (handleSend s).
Proof.
  intros Hs. unfold handleSend.
  destruct (negb (JS.truthy (JS.trim (message s))) || isStreaming s) eqn:G;
    [exact Hs|].
  apply orb_false_iff in G as [G _]. apply negb_false_iff in G.
  cbn. destruct (currentUser s).
  - destruct Hs as (Hm & Hc & Hr).
    assert (Hg : goodClosure (closureOf s)) by (split; assumption).
    split; [exact Hm|]. split.
    + cbn. intros cl [= <-]. exact Hg.
    + cbn. apply wellFormed_snoc; [exact Hr|].
      exists (closureOf s). split; [exact Hg|reflexivity].
  - eapply payloadInvariant_emit; [..|exact Hs]; try reflexivity.
Qed.

Lemma step_payloadInvariant (e : Event) (s : State) :
  payloadInvariant s -> payloadInvariant (step e s).
Proof.
  intros Hs. destruct e; simpl.
  - (* InputChange *) now apply (payloadInvariant_ext s).
  - (* ExampleClick *) now apply (payloadInvariant_ext s).
  - (* ModelClick *)
    destruct (nth_error ModelSelector.models entry) eqn:En; [|exact Hs].
    destruct Hs as (Hm & Hc & Hr). split; [|split; assumption].
    eapply model_entry_offered. exact En.
  - (* SubmitClick *) now apply handleSend_payloadInvariant.
  - (* EnterKey *) now apply handleSend_payloadInvariant.
  - (* RouteChange *) now apply (payloadInvariant_ext s).
  - (* AuthChange *) now apply (payloadInvariant_ext s).
  - (* StreamMetadata *)
    unfold with_callbacks, onMetadata.
    destruct (callbacks s); [|exact Hs].
    destruct (_ && _); [|exact Hs].
    eapply (payloadInvariant_emit (emit (InvalidateQueries QConversations) s));
      [reflexivity..|exact I|].
    now eapply (payloadInvariant_emit s); [reflexivity..|exact I|].
  - (* StreamChunk *)
    unfold with_callbacks. destruct (callbacks s); [|exact Hs].
    now apply (payloadInvariant_ext s).
  - (* StreamComplete *)
    unfold with_callbacks. destruct (callbacks s); [|exact Hs].
    eapply (payloadInvariant_emit
              (emit (InvalidateQueries (QConversation (cl_conversationId c)))
                 s)); [reflexivity..|exact I|].
    now eapply (payloadInvariant_emit s); [reflexivity..|exact I|].
  - (* StreamError *)
    unfold with_callbacks. destruct (callbacks s) eqn:Ec; [|exact Hs].
    eapply (payloadInvariant_emit
              (emit (Alert ("Error: " +:+
                            JS.or_else (JS.message error)
                              "Failed to send message. Please try again."))
                 s)); [reflexivity..| |].
    + exists c. split; [|reflexivity]. destruct Hs as (_ & Hc & _). auto.
    + now eapply (payloadInvariant_emit s); [reflexivity..|exact I|].
  - (* StreamThrow *)
    unfold with_callbacks. destruct (callbacks s); [|exact Hs].
    now eapply (payloadInvariant_emit s); [reflexivity..|exact I|].
  - (* MutationSuccess *)
    apply (payloadInvariant_ext (onSuccess data s)); [reflexivity..|].
    unfold onSuccess. cbv zeta.
    assert (H2 : payloadInvariant
              (emit (InvalidateQueries QConversations)
                 (emit (InvalidateQueries
                          (QConversation
                             (Some (ChatApi.data_conversation_id data)))) s))).
    { eapply (payloadInvariant_emit
                (emit (InvalidateQueries
                         (QConversation
                            (Some (ChatApi.data_conversation_id data)))) s));
        [reflexivity..|exact I|].
      now eapply (payloadInvariant_emit s); [reflexivity..|exact I|]. }
    destruct (negb _); [|exact H2].
    eapply payloadInvariant_emit; [..|exact H2]; try reflexivity.
  - (* MutationFailure *) now apply (payloadInvariant_ext s).
Qed.

Lemma run_payloadInvariant (evs : list Event) (s : State) :
  payloadInvariant s -> payloadInvariant (run evs s).
Proof.
  revert s. induction evs as [|e evs IH]; intros s Hs; simpl; [exact Hs|].
  apply IH. now apply step_payloadInvariant.
Qed.

Lemma initial_payloadInvariant (route user : option string) :
  payloadInvariant (initial route user).
Proof.
  split; [|split].
  - simpl. auto.
  - simpl. discriminate.
  - constructor.
Qed.

End PageInvariants.

Section FallbackFacts.

Import ChatPage.



End FallbackFacts.

Section StreamFacts.

Import ChatPage.

Lemma append_empty_r (a : string) : a +:+ "" = a.
Proof.
  induction a as [|c a IH]; [reflexivity|].
  change (String c (a +:+ "") = String c a). now rewrite IH.
Qed.

Lemma append_assoc (a b c : string) : (a +:+ b) +:+ c = a +:+ (b +:+ c).
Proof.
  induction a as [|x a IH]; [reflexivity|].
  change (String x ((a +:+ b) +:+ c) = String x (a +:+ (b +:+ c))).
  now rewrite IH.
Qed.

(** Chunks are appended to the buffer in the order they arrive; nothing
    else of the page changes. *)
Lemma run_chunks (chunks : list string) (s : State) :
  callbacks s <> None ->
  run (map StreamChunk chunks) s =
  setStreamingMessage (fun prev => prev +:+ concatenation chunks) s.
Proof.
  revert s. induction chunks as [|c cs IH]; intros s Hc; simpl.
  - destruct s. cbv [setStreamingMessage concatenation fold_right]. cbn.
    now rewrite append_empty_r.
  - unfold with_callbacks at 1. destruct (callbacks s) eqn:Ec; [|congruence].
    rewrite IH by (cbn; congruence).
    cbv [onChunk setStreamingMessage concatenation]. cbn [fold_right].
    cbn. now rewrite append_assoc.
Qed.

(** The metadata callback leaves the buffer, the flag and the callbacks
    alone. *)
Lemma metadata_keeps (md : ChatApi.Metadata) (s : State) :
  let s' := step (StreamMetadata md) s in
  streamingMessage s' = streamingMessage s
  /\ isStreaming s' = isStreaming s
  /\ callbacks s' = callbacks s
  /\ openStreams s' = openStreams s.
Proof.
  cbn. unfold with_callbacks, onMetadata.
  destruct (callbacks s) eqn:Ec; [|now rewrite Ec].
  destruct (_ && _); cbn; now rewrite Ec.
Qed.

Lemma alerts_grow (l : list string) (a : string) : l ++ [a] <> l.
Proof.
  intros H. apply (f_equal (@length string)) in H.
  rewrite length_app in H. simpl in H. lia.
Qed.

End StreamFacts.

Section InFlightFacts.

Import ChatPage.

Lemma isPending_false (s : State) :
  isPending s = false <-> pendingMutations s = 0.
Proof. unfold isPending. rewrite Nat.ltb_ge. lia. Qed.

Lemma oneAtATime_ext (s s' : State) :
  openStreams s' = openStreams s ->
  isStreaming s' = isStreaming s ->
  pendingMutations s' = pendingMutations s ->
  oneAtATime s -> oneAtATime s'.
Proof. unfold oneAtATime. intros -> -> ->. tauto. Qed.

(** With no mutation pending, [handleSend] starts at most the one
    stream. *)
Lemma handleSend_oneAtATime (s : State) :
  isPending s = false -> oneAtATime s -> oneAtATime (handleSend s).
Proof.
  intros Hp Hs. unfold handleSend.
  destruct (negb (JS.truthy (JS.trim (message s))) || isStreaming s) eqn:G;
    [exact Hs|].
  apply orb_false_iff in G as [_ G]. apply isPending_false in Hp.
  destruct Hs as [(Ho & _ & _)|(_ & Hi & _)]; [|congruence].
  cbn. destruct (currentUser s); cbn.
  - right. cbn. lia.
  - left. cbn. lia.
Qed.

(** A stream event that ends the stream leaves at most the fallback. *)
Lemma step_oneAtATime (e : Event) (s : State) :
  enabled e s = true -> oneAtATime s -> oneAtATime (step e s).
Proof.
  intros He Hs. destruct e; cbn [step enabled] in *.
  - now apply (oneAtATime_ext s).
  - now apply (oneAtATime_ext s).
  - destruct (nth_error _ _); [|exact Hs]. now apply (oneAtATime_ext s).
  - apply handleSend_oneAtATime; [|exact Hs].
    unfold submitDisabled in He. apply negb_true_iff in He.
    now apply orb_false_iff in He as [He%orb_false_iff _].
  - apply handleSend_oneAtATime; [|exact Hs].
    unfold inputDisabled in He. apply negb_true_iff in He.
    now apply orb_false_iff in He.
  - now apply (oneAtATime_ext s).
  - now apply (oneAtATime_ext s).
  - unfold with_callbacks, onMetadata. destruct (callbacks s); [|exact Hs].
    destruct (_ && _); [|exact Hs]. now apply (oneAtATime_ext s).
  - unfold with_callbacks. destruct (callbacks s); [|exact Hs].
    now apply (oneAtATime_ext s).
  - unfold with_callbacks. destruct (callbacks s); [|exact Hs].
    apply Nat.ltb_lt in He.
    destruct Hs as [(Ho & _ & _)|(Ho & Hi & Hp)]; [lia|].
    left. cbn. lia.
  - unfold with_callbacks. destruct (callbacks s); [|exact Hs].
    apply Nat.ltb_lt in He.
    destruct Hs as [(Ho & _ & _)|(Ho & Hi & Hp)]; [lia|].
    left. cbn. lia.
  - unfold with_callbacks. destruct (callbacks s); [|exact Hs].
    apply Nat.ltb_lt in He.
    destruct Hs as [(Ho & _ & _)|(Ho & Hi & Hp)]; [lia|].
    left. cbn. lia.
  - apply Nat.ltb_lt in He.
    destruct Hs as [(Ho & Hi & Hp)|(Ho & Hi & Hp)]; [|lia].
    left. unfold onSuccess. cbv zeta.
    destruct (negb _); cbn; (split; [|split]; (assumption || lia)).
  - apply Nat.ltb_lt in He.
    destruct Hs as [(Ho & Hi & Hp)|(Ho & Hi & Hp)]; [|lia].
    left. cbn. split; [|split]; (assumption || lia).
Qed.

Lemma run_oneAtATime (evs : list Event) (s : State) :
  valid evs s = true -> oneAtATime s -> oneAtATime (run evs s).
Proof.
  revert s. induction evs as [|e evs IH]; intros s Hv Hs; simpl; [exact Hs|].
  simpl in Hv. apply andb_true_iff in Hv as [He Hv].
  apply IH; [exact Hv|]. now apply step_oneAtATime.
Qed.

End InFlightFacts.

Section PageClaims.

Import ChatPage.




(** C8. After an accepted send, once the metadata event and any chunks
    have arrived, the buffer is the chunks put end to end in arrival
    order, the flag is on and the bubble shows that text (the dots while
    it is empty); the completion event then empties the buffer and turns
    the flag off. *)
Theorem streaming_text_is_chunks_in_order
    (s0 : State) (md : ChatApi.Metadata) (chunks : list string)
    (messageId : string) :
  accepted s0 = true ->
  let s1 := run (StreamMetadata md :: map StreamChunk chunks)
              (handleSend s0) in
  let s2 := step (StreamComplete messageId) s1 in
  streamingMessage s1 = concatenation chunks
  /\ isStreaming s1 = true
  /\ bubble s1 = (if JS.truthy (concatenation chunks)
                  then StreamingText (concatenation chunks) else Dots)
  /\ streamingMessage s2 = ""
  /\ isStreaming s2 = false
  /\ openStreams s2 = openStreams s0.
Proof.
  intros Ha s1 s2.
  pose proof (handleSend_accepted s0 Ha) as Hs.
  destruct (metadata_keeps md (handleSend s0)) as (M1 & M2 & M3 & M4).
  cbv zeta in M1, M2, M3, M4.
  assert (Hc : callbacks (step (StreamMetadata md) (handleSend s0))
               = Some (closureOf s0)) by (rewrite M3, Hs; reflexivity).
  assert (E1 : s1 = setStreamingMessage
                      (fun prev => prev +:+ concatenation chunks)
                      (step (StreamMetadata md) (handleSend s0))).
  { subst s1. cbn [run]. apply run_chunks. congruence. }
  assert (Hb : streamingMessage s1 = concatenation chunks).
  { rewrite E1. cbn [setStreamingMessage streamingMessage].
    rewrite M1, Hs. reflexivity. }
  assert (Hi : isStreaming s1 = true).
  { rewrite E1. cbn [setStreamingMessage isStreaming].
    rewrite M2, Hs. reflexivity. }
  assert (Hc1 : callbacks s1 = Some (closureOf s0)).
  { rewrite E1. exact Hc. }
  assert (Ho : openStreams s1 = S (openStreams s0)).
  { rewrite E1. cbn [setStreamingMessage openStreams].
    rewrite M4, Hs. reflexivity. }
  subst s2. clearbody s1.
  split; [exact Hb|]. split; [exact Hi|]. split.
  { unfold bubble. rewrite Hi, Hb, orb_true_r. reflexivity. }
  cbn [step]. unfold with_callbacks. rewrite Hc1.
  split; [reflexivity|]. split; [reflexivity|].
  cbn. now rewrite Ho.
Qed.

Lemma streaming_text_is_chunks_in_order_witness :
  let s1 := run [StreamMetadata {| ChatApi.md_conversation_id := "c-1" |};
                 StreamChunk "A random "; StreamChunk "forest is"]
              (handleSend ready) in
  bubble s1 = StreamingText "A random forest is"
  /\ streamingMessage (step (StreamComplete "m-1") s1) = ""
  /\ isStreaming (step (StreamComplete "m-1") s1) = false.
Proof.
  intros s1.
  destruct (streaming_text_is_chunks_in_order ready
              {| ChatApi.md_conversation_id := "c-1" |}
              ["A random "; "forest is"] "m-1")
    as (_ & _ & Hb & Hm & Hf & _); [reflexivity|].
  split; [exact Hb|]. split; [exact Hm | exact Hf].
Defined.

(** C9. A stream error empties the buffer, turns the flag off and
    alerts the user with the error's message; a completion alerts
    nothing, so the two outcomes leave different traces. *)
Theorem stream_error_is_reported
    (s : State) (cl : Closure) (err : JS.Error) (messageId : string) :
  callbacks s = Some cl ->
  let failed := step (StreamError err) s in
  let completed := step (StreamComplete messageId) s in
  streamingMessage failed = ""
  /\ isStreaming failed = false
  /\ alerts (effects failed) =
     alerts (effects s)
     ++ ["Error: " +:+ JS.or_else (JS.message err)
                         "Failed to send message. Please try again."]
  /\ alerts (effects completed) = alerts (effects s)
  /\ effects failed <> effects completed.
Proof.
  intros Hc failed completed.
  assert (Hf : alerts (effects failed) =
               alerts (effects s)
               ++ ["Error: " +:+ JS.or_else (JS.message err)
                                   "Failed to send message. Please try again."]).
  { subst failed. cbn [step]. unfold with_callbacks. rewrite Hc. cbn.
    now rewrite !alerts_snoc, app_nil_r. }
  assert (Hk : alerts (effects completed) = alerts (effects s)).
  { subst completed. cbn [step]. unfold with_callbacks. rewrite Hc. cbn.
    now rewrite !alerts_snoc, !app_nil_r. }
  split; [|split; [|split; [exact Hf|split; [exact Hk|]]]].
  - subst failed. cbn [step]. unfold with_callbacks. now rewrite Hc.
  - subst failed. cbn [step]. unfold with_callbacks. now rewrite Hc.
  - intros E. rewrite E, Hk in Hf. symmetry in Hf.
    exact (alerts_grow _ _ Hf).
Qed.

Lemma stream_error_is_reported_witness :
  let s := run [StreamChunk "A random "] (handleSend ready) in
  streamingMessage s = "A random "
  /\ streamingMessage (step (StreamError boom) s) = ""
  /\ alerts (effects (step (StreamError boom) s)) = ["Error: network error"]
  /\ alerts (effects (step (StreamComplete "m-1") s)) = [].
Proof.
  intros s.
  destruct (stream_error_is_reported s (closureOf ready) boom "m-1")
    as (Hb & _ & Ha & Hk & _); [reflexivity|].
  split; [reflexivity|]. split; [exact Hb|]. split; [exact Ha | exact Hk].
Defined.

(** C6. A message that is empty or all white space is never sent:
    [handleSend] does nothing with it, the submit button is disabled, and
    no payload any run of the page sends carries one.  At the boundary a
    ChatRequest is built only from a message of 1 to 10,000 characters; a
    longer one, or an empty one, is rejected. *)
Theorem message_text_is_validated :
  (forall s : State,
      JS.all_white_space (message s) = true ->
      handleSend s = s /\ submitDisabled s = true)
  /\ (forall route user evs r,
         In r (requests (effects (run evs (initial route user)))) ->
         JS.all_white_space (ChatApi.message r) = false)
  /\ (forall r : ChatApi.Request,
         (10000 < Z.of_nat (String.length (ChatApi.message r)))%Z ->
         Schema.construct r = None)
  /\ (forall r : ChatApi.Request,
         ChatApi.message r = "" -> Schema.construct r = None)
  /\ (forall r c,
         Schema.construct r = Some c ->
         Schema.text c = ChatApi.message r
         /\ (1 <= Z.of_nat (String.length (Schema.text c)) <= 10000)%Z).
Proof.
  split; [|split; [|split; [|split]]].
  - intros s H. apply blank_iff in H. split.
    + apply handleSend_refused. now left.
    + unfold submitDisabled. rewrite H. apply orb_true_r.
  - intros route user evs r Hr.
    pose proof (run_payloadInvariant evs _
                  (initial_payloadInvariant route user)) as (_ & _ & Hall).
    rewrite List.Forall_forall in Hall.
    destruct (Hall r Hr) as (cl & (Hm & _) & ->). cbn.
    destruct (JS.all_white_space (cl_currentMessage cl)) eqn:E;
      [|reflexivity].
    apply blank_iff in E. congruence.
  - intros r H. unfold Schema.construct, Schema.text_ok.
    replace (Z.of_nat (String.length (ChatApi.message r)) <=? 10000)%Z
      with false by (symmetry; apply Z.leb_gt; exact H).
    now rewrite andb_false_r.
  - intros r H. unfold Schema.construct, Schema.text_ok. now rewrite H.
  - intros r c H. unfold Schema.construct in H.
    destruct (Schema.text_ok (ChatApi.message r)) eqn:Et;
      [|discriminate H].
    destruct (_ && _) in H; [|discriminate H].
    injection H as <-. cbn. split; [reflexivity|].
    unfold Schema.text_ok in Et. apply andb_true_iff in Et as [E1 E2].
    apply Z.leb_le in E1, E2. lia.
Qed.

Lemma message_text_is_validated_witness :
  handleSend blank = blank /\ submitDisabled blank = true
  /\ Schema.construct oversized = None.
Proof.
  destruct message_text_is_validated as (H1 & _ & H3 & _).
  split; [|split].
  - apply (H1 blank). reflexivity.
  - apply (H1 blank). reflexivity.
  - apply (H3 oversized). vm_compute. reflexivity.
Defined.

(** C7. The model selector starts at ["auto"]; every payload any run of
    the page sends has temperature 0.7, inside [0, 2], max_tokens 2048,
    inside [1, 8192], and a model among the four ids of the selector;
    and each of the four is sent by some run. *)
Theorem generation_config_in_bounds :
  (forall route user, selectedModel (initial route user) = "auto")
  /\ (forall route user evs r,
         In r (requests (effects (run evs (initial route user)))) ->
         let m := ChatApi.meta r in
         ChatApi.temperature m = 7 # 10
         /\ Qle 0 (ChatApi.temperature m) /\ Qle (ChatApi.temperature m) 2
         /\ ChatApi.max_tokens m = 2048%Z
         /\ (1 <= ChatApi.max_tokens m <= 8192)%Z
         /\ In (ChatApi.model m)
              ["auto"; "theory-specialist"; "code-specialist";
               "math-specialist"])
  /\ (forall name,
         In name ["auto"; "theory-specialist"; "code-specialist";
                  "math-specialist"] ->
         exists evs r,
           valid evs (initial None (Some "user-1")) = true
           /\ In r (requests (effects (run evs (initial None (Some "user-1")))))
           /\ ChatApi.model (ChatApi.meta r) = name).
Proof.
  split; [reflexivity|]. split.
  - intros route user evs r Hr.
    pose proof (run_payloadInvariant evs _
                  (initial_payloadInvariant route user)) as (_ & _ & Hall).
    rewrite List.Forall_forall in Hall.
    destruct (Hall r Hr) as (cl & (_ & Hm) & ->). cbn.
    split; [reflexivity|]. split; [discriminate|]. split; [discriminate|].
    split; [reflexivity|]. split; [lia|]. exact Hm.
  - intros name Hn.
    assert (Hi : exists i, i < 4 /\
               ModelSelector.id <$> nth_error ModelSelector.models i
               = Some name).
    { cbn in Hn.
      destruct Hn as [<-|[<-|[<-|[<-|[]]]]];
        [exists 0|exists 1|exists 2|exists 3]; split; (lia || reflexivity). }
    destruct Hi as (i & Hi & Hname).
    exists [InputChange "hi"; ModelClick i; SubmitClick].
    exists (streamRequest {| cl_conversationId := None;
                             cl_currentMessage := "hi";
                             cl_selectedModel := name |}).
    destruct i as [|[|[|[|i]]]]; try lia; injection Hname as <-;
      (split; [reflexivity | split; [left; reflexivity | reflexivity]]).
Qed.

Lemma generation_config_in_bounds_witness :
  let r := streamRequest {| cl_conversationId := None;
                            cl_currentMessage := "hi";
                            cl_selectedModel := "math-specialist" |} in
  ChatApi.temperature (ChatApi.meta r) = 7 # 10
  /\ ChatApi.max_tokens (ChatApi.meta r) = 2048%Z
  /\ In (ChatApi.model (ChatApi.meta r))
       ["auto"; "theory-specialist"; "code-specialist"; "math-specialist"].
Proof.
  intros r.
  destruct generation_config_in_bounds as (_ & H & _).
  destruct (H None (Some "user-1") [InputChange "hi"; ModelClick 3; SubmitClick]
              r) as (Ht & _ & _ & Hk & _ & Hm).
  - left. reflexivity.
  - split; [exact Ht|]. split; [exact Hk | exact Hm].
Defined.

(** C10 (amended). Along every run driven through the page's controls
    at most one request is on its way.  While a stream is in progress
    [handleSend] returns at once; while a stream is in progress or the
    mutation is pending the input and the submit button are disabled, so
    neither a click nor the Enter key can submit. *)
Theorem one_request_at_a_time
    (route user : option string) (evs : list Event) :
  valid evs (initial route user) = true ->
  let s := run evs (initial route user) in
  inFlight s <= 1
  /\ (isStreaming s = true -> handleSend s = s)
  /\ (isStreaming s = true \/ isPending s = true ->
      inputDisabled s = true /\ submitDisabled s = true
      /\ enabled SubmitClick s = false /\ enabled EnterKey s = false).
Proof.
  intros Hv s.
  assert (Hs : oneAtATime s).
  { apply run_oneAtATime; [exact Hv|]. left. cbn. lia. }
  split; [|split].
  - unfold inFlight. destruct Hs as [(? & _ & ?)|(? & _ & ?)]; lia.
  - intros H. apply handleSend_refused. now right.
  - intros H.
    assert (Hd : inputDisabled s = true).
    { unfold inputDisabled. destruct H as [-> | ->];
        [apply orb_true_r | reflexivity]. }
    assert (Hb : submitDisabled s = true).
    { unfold submitDisabled. fold (inputDisabled s). now rewrite Hd. }
    cbn [enabled]. now rewrite Hd, Hb.
Qed.

Lemma one_request_at_a_time_witness :
  let s := run [InputChange "hi"; SubmitClick; StreamChunk "A"]
             (initial None (Some "user-1")) in
  inFlight s <= 1 /\ handleSend s = s /\ submitDisabled s = true.
Proof.
  intros s.
  destruct (one_request_at_a_time None (Some "user-1")
              [InputChange "hi"; SubmitClick; StreamChunk "A"])
    as (H1 & H2 & H3); [reflexivity|].
  split; [exact H1|]. split; [apply H2; reflexivity|].
  apply H3. left. reflexivity.
Defined.

(** C10 as stated fails for [handleSend] itself: with the fallback
    mutation pending and no stream in progress it does not return at
    once but starts a stream, a second request on its way. *)
Lemma handleSend_ignores_pending_mutation :
  let s := run fallbackPending (initial None (Some "user-1")) in
  valid fallbackPending (initial None (Some "user-1")) = true
  /\ isPending s = true
  /\ isStreaming s = false
  /\ handleSend s <> s
  /\ inFlight (handleSend s) = 2.
Proof.
  cbv zeta. split; [reflexivity|]. split; [reflexivity|].
  split; [reflexivity|]. split; [|reflexivity].
  intros E. apply (f_equal inFlight) in E. vm_compute in E. discriminate E.
Qed.

(** The page itself puts no upper bound on the message: it sends the
    10,001 characters, and the boundary rejects them. *)
Example page_sends_oversized_message :
  let s := setMessage (JS.repeat "a" (Z.to_nat 10001))
             (initial None (Some "user-1")) in
  requests (effects (handleSend s)) = [oversized]
  /\ Schema.construct oversized = None.
Proof. vm_compute. split; reflexivity. Qed.

End PageClaims.

(** ** The router *)

Section RouterClaims.

Import Router.

Variables code_tokens math_tokens : list string.
Variable score : nat -> Q.
Variable cap : Q.

Lemma specialist_name_roundtrip (s : Specialist) :
  specialist_of_name (name_of_specialist s) = Some s.
Proof. now destruct s. Qed.

(** C3. An explicit choice of a named specialist is taken as it is,
    whatever the text: strategy explicit, confidence exactly 1, reason
    "user override"; so "math-specialist" always yields the math
    specialist. *)
Theorem explicit_model_is_selected (s : Specialist) (text : string) :
  decide code_tokens math_tokens score cap
    (Some (name_of_specialist s)) text
  = {| endpoint := s; strategy := Explicit; confidence := 1;
       reasons := ["user override"] |}
  /\ endpoint (decide code_tokens math_tokens score cap
                 (Some "math-specialist") text) = MathSpecialist
  /\ confidence (decide code_tokens math_tokens score cap
                   (Some "math-specialist") text) = 1%Q
  /\ strategy (decide code_tokens math_tokens score cap
                 (Some "math-specialist") text) = Explicit.
Proof.
  split; [|repeat split].
  unfold decide. cbn [mbind option_bind].
  now rewrite specialist_name_roundtrip.
Qed.

(** Without a named specialist the choice is automatic. *)
Lemma auto_is_classified (text : string) :
  strategy (decide code_tokens math_tokens score cap (Some "auto") text)
  = Automatic.
Proof. reflexivity. Qed.

End RouterClaims.

(** ** The rate limiter *)

Section RateLimiterClaims.

Import RateLimiter.

Lemma window_start_bounds (now window : Z) :
  (0 < window)%Z ->
  (window_start now window <= now < window_start now window + window)%Z.
Proof.
  intros H. unfold window_start.
  pose proof (Z.mod_pos_bound now window H). lia.
Qed.

(** One check in window [w] of a key whose counter there stands at [c]:
    allowed exactly while [c + 1] stays within the limit, counter moved
    to [c + 1], the other counters untouched. *)
Lemma check_counts (key : string) (limit window now w c : Z) (st : Store) :
  window_start now window = w ->
  default 0%Z (st !! (key, w)) = c ->
  let '(v, st') := check key limit window now st in
  enforce now v =
    (if (c + 1 <=? limit)%Z then None
     else Some (RateLimitExceeded (w + window - now)))
  /\ st' !! (key, w) = Some (c + 1)%Z
  /\ (forall k, k <> (key, w) -> st' !! k = st !! k).
Proof.
  intros Hw Hc. unfold check, incr. rewrite Hw, Hc. cbn.
  split; [|split].
  - unfold enforce. cbn. now destruct (c + 1 <=? limit)%Z.
  - apply lookup_insert_eq.
  - intros k Hk. now apply lookup_insert_ne.
Qed.

(** Requests of one window are let through by the counter alone. *)
Lemma serve_window (key : string) (limit window w : Z) (times : list Z) :
  forall (st : Store) (c : Z),
    Forall (fun t => window_start t window = w) times ->
    default 0%Z (st !! (key, w)) = c ->
    fst (serve key limit window times st)
    = predicted limit (w + window) c times
    /\ default 0%Z (snd (serve key limit window times st) !! (key, w))
       = (c + Z.of_nat (length times))%Z
    /\ (forall k, k <> (key, w) ->
                  snd (serve key limit window times st) !! k = st !! k).
Proof.
  induction times as [|t rest IH]; intros st c Hall Hc.
  - cbn. split; [reflexivity|]. split; [lia|reflexivity].
  - apply Forall_cons in Hall as [Ht Hrest].
    pose proof (check_counts key limit window t w c st Ht Hc) as P.
    cbn [serve predicted].
    destruct (check key limit window t st) as [v st1].
    destruct P as (Pe & Pl & Po).
    assert (Hc1 : default 0%Z (st1 !! (key, w)) = (c + 1)%Z)
      by now rewrite Pl.
    destruct (IH st1 (c + 1)%Z Hrest Hc1) as (I1 & I2 & I3).
    destruct (serve key limit window rest st1) as [vs st2].
    cbn [fst snd] in *. split; [|split].
    + now rewrite Pe, I1.
    + rewrite I2. cbn [length]. lia.
    + intros k Hk. rewrite I3 by exact Hk. now apply Po.
Qed.

Lemma serve_app (key : string) (limit window : Z) (a b : list Z)
    (st : Store) :
  serve key limit window (a ++ b) st =
  let '(va, st1) := serve key limit window a st in
  let '(vb, st2) := serve key limit window b st1 in
  (va ++ vb, st2).
Proof.
  revert st. induction a as [|t a IH]; intros st; cbn [serve app].
  - now destruct (serve key limit window b st).
  - destruct (check key limit window t st) as [v st1]. rewrite IH.
    destruct (serve key limit window a st1) as [va st2].
    now destruct (serve key limit window b st2).
Qed.

(** C5. With a limit of 5 per minute, on a key with no count yet in the
    window: five requests of one window pass, the sixth is rejected with
    RateLimitExceeded and a positive retry-after, the time left until
    the window's reset, and a request of the next window passes. *)
Theorem sixth_request_is_rejected
    (key : string) (st : Store) (w t1 t2 t3 t4 t5 t6 t7 : Z) :
  Forall (fun t => window_start t 60 = w) [t1; t2; t3; t4; t5; t6] ->
  window_start t7 60 = (w + 60)%Z ->
  st !! (key, w) = None ->
  st !! (key, (w + 60)%Z) = None ->
  fst (serve key 5 60 [t1; t2; t3; t4; t5; t6; t7] st)
  = [None; None; None; None; None;
     Some (RateLimitExceeded (w + 60 - t6)); None]
  /\ (0 < w + 60 - t6)%Z
  /\ reset_at (fst (check key 5 60 t6 st)) = (w + 60)%Z.
Proof.
  intros Hall H7 Hw Hn.
  assert (H0 : default 0%Z (st !! (key, w)) = 0%Z) by now rewrite Hw.
  destruct (serve_window key 5 60 w _ st 0%Z Hall H0) as (S1 & _ & S3).
  change [t1; t2; t3; t4; t5; t6; t7]
    with ([t1; t2; t3; t4; t5; t6] ++ [t7]).
  rewrite serve_app.
  destruct (serve key 5 60 [t1; t2; t3; t4; t5; t6] st) as [va st1].
  cbn [fst snd] in S1, S3.
  assert (H1 : default 0%Z (st1 !! (key, (w + 60)%Z)) = 0%Z).
  { rewrite S3, Hn; [reflexivity|]. intros [= E]. lia. }
  assert (Hall7 : Forall (fun t => window_start t 60 = (w + 60)%Z) [t7])
    by (constructor; [exact H7|constructor]).
  destruct (serve_window key 5 60 (w + 60)%Z _ st1 0%Z Hall7 H1)
    as (T1 & _ & _).
  destruct (serve key 5 60 [t7] st1) as [vb st2].
  cbn [fst] in T1 |- *. rewrite S1, T1.
  split; [reflexivity|]. split.
  - apply Forall_cons in Hall as [_ Hall].
    do 4 apply Forall_cons in Hall as [_ Hall].
    apply Forall_cons in Hall as [H6 _].
    pose proof (window_start_bounds t6 60 ltac:(lia)). lia.
  - apply Forall_cons in Hall as [_ Hall].
    do 4 apply Forall_cons in Hall as [_ Hall].
    apply Forall_cons in Hall as [H6 _].
    unfold check, incr. cbn. now rewrite H6.
Qed.

Lemma sixth_request_is_rejected_witness :
  fst (serve "user-1" 5 60 [120; 125; 130; 140; 150; 170; 185]%Z ∅)
  = [None; None; None; None; None; Some (RateLimitExceeded 10); None].
Proof.
  destruct (sixth_request_is_rejected "user-1" ∅ 120 120 125 130 140 150 170
              185) as (H & _ & _).
  - repeat constructor.
  - reflexivity.
  - apply lookup_empty.
  - apply lookup_empty.
  - exact H.
Defined.

End RateLimiterClaims.

(** ** The response cleaner *)

Section CleanerClaims.

Import ResponseCleaner.

Variables think_open think_close : string.
Variable artifacts : list string.

Lemma deletes_only_compose (f g : string -> string) :
  deletes_only f -> deletes_only g -> deletes_only (fun s => g (f s)).
Proof.
  intros Hf Hg s. destruct (Hf s) as [F1 F2]. destruct (Hg (f s)) as [G1 G2].
  split; [lia|]. intros E.
  assert (E1 : String.length (f s) = String.length s) by lia.
  rewrite G2 by lia. now apply F2.
Qed.

Lemma strip_thinking_deletes (s : string) :
  forall inside skip,
    String.length (strip_thinking think_open think_close inside skip s)
    <= String.length s
    /\ (String.length (strip_thinking think_open think_close inside skip s)
        = String.length s ->
        strip_thinking think_open think_close inside skip s = s).
Proof.
  induction s as [|c t IH]; intros inside skip; [now split|].
  cbn [strip_thinking String.length].
  destruct skip as [|k].
  - destruct inside.
    + destruct (String.prefix think_close (String c t));
        [destruct (IH false (String.length think_close - 1))
        |destruct (IH true 0)]; split; lia.
    + destruct (_ && _).
      * destruct (IH true (String.length think_open - 1)); split; lia.
      * destruct (IH false 0) as [I1 I2]. cbn [String.length].
        split; [lia|]. intros E. f_equal. apply I2. lia.
  - destruct (IH inside k). split; lia.
Qed.

Lemma trim_markdown_deletes (s : string) :
  forall skip,
    String.length (trim_markdown artifacts skip s) <= String.length s
    /\ (String.length (trim_markdown artifacts skip s) = String.length s ->
        trim_markdown artifacts skip s = s).
Proof.
  induction s as [|c t IH]; intros skip; [now split|].
  cbn [trim_markdown String.length].
  destruct skip as [|k].
  - destruct (artifact_at artifacts (String c t)) as [tok|].
    + destruct (IH (String.length tok - 1)). split; lia.
    + destruct (IH 0) as [I1 I2]. cbn [String.length].
      split; [lia|]. intros E. f_equal. apply I2. lia.
  - destruct (IH k). split; lia.
Qed.

Lemma collapse_deletes (s : string) :
  forall after_space,
    String.length (collapse after_space s) <= String.length s
    /\ (String.length (collapse after_space s) = String.length s ->
        collapse after_space s = s).
Proof.
  induction s as [|c t IH]; intros after_space; [now split|].
  cbn [collapse String.length].
  destruct (Ascii.is_space c); [destruct after_space|].
  - destruct (IH true). split; lia.
  - destruct (IH true) as [I1 I2]. cbn [String.length].
    split; [lia|]. intros E. f_equal. apply I2. lia.
  - destruct (IH false) as [I1 I2]. cbn [String.length].
    split; [lia|]. intros E. f_equal. apply I2. lia.
Qed.

Lemma lstrip_deletes : deletes_only lstrip.
Proof.
  intros s. induction s as [|c t [I1 I2]]; [now split|].
  cbn [lstrip String.length].
  destruct (Ascii.is_space c); [split; lia|now split].
Qed.

Lemma rstrip_deletes : deletes_only rstrip.
Proof.
  intros s. induction s as [|c t [I1 I2]]; [now split|].
  cbn [rstrip String.length].
  destruct (rstrip t) as [|c' t'] eqn:Er.
  - destruct (Ascii.is_space c); cbn [String.length] in *.
    + split; lia.
    + split; [lia|]. intros E. f_equal. apply I2. lia.
  - cbn [String.length] in *. split; [lia|].
    intros E. f_equal. apply I2. lia.
Qed.

Lemma clean_deletes : deletes_only (clean think_open think_close artifacts).
Proof.
  unfold clean, normalize_whitespace.
  apply (deletes_only_compose
           (fun s => trim_markdown artifacts 0
                       (strip_thinking think_open think_close false 0 s))
           (fun s => rstrip (lstrip (collapse false s)))).
  - apply (deletes_only_compose
             (strip_thinking think_open think_close false 0)
             (trim_markdown artifacts 0)).
    + intros s. apply strip_thinking_deletes.
    + intros s. apply trim_markdown_deletes.
  - apply (deletes_only_compose (fun s => lstrip (collapse false s)) rstrip).
    + apply (deletes_only_compose (collapse false) lstrip).
      * intros s. apply collapse_deletes.
      * apply lstrip_deletes.
    + apply rstrip_deletes.
Qed.

(** Cleaning again and again comes to rest: after as many rounds as the
    text has characters, one more round changes nothing. *)
Lemma repeated_clean_comes_to_rest (x : string) (n : nat) :
  String.length x <= n ->
  clean think_open think_close artifacts
    (Nat.iter n (clean think_open think_close artifacts) x)
  = Nat.iter n (clean think_open think_close artifacts) x.
Proof.
  set (f := clean think_open think_close artifacts).
  assert (P : forall k,
             f (Nat.iter k f x) = Nat.iter k f x
             \/ String.length (Nat.iter k f x) + k <= String.length x).
  { induction k as [|k [IH|IH]]; [right; cbn; lia| |].
    - left. rewrite Nat.iter_succ. now rewrite !IH.
    - rewrite Nat.iter_succ.
      destruct (clean_deletes (Nat.iter k f x)) as [D1 D2].
      fold f in D1, D2.
      destruct (Nat.eq_dec (String.length (f (Nat.iter k f x)))
                  (String.length (Nat.iter k f x))) as [E|E].
      + left. now rewrite !(D2 E).
      + right. lia. }
  intros Hn. destruct (P n) as [H|H]; [exact H|].
  assert (E : Nat.iter n f x = "")
    by (destruct (Nat.iter n f x); [reflexivity|cbn in H; lia]).
  rewrite E. reflexivity.
Qed.

End CleanerClaims.

(** One round is not idempotent: deleting a segment can put the halves of
    another one together, and deleting an artifact can put a start token
    together. *)
Example clean_once_is_not_idempotent :
  let clean := ResponseCleaner.clean "<think>" "</think>" ["**"] in
  clean "<think>plan</think>  **Answer**:   42  " = "Answer: 42"
  /\ clean "<th<think>a</think>ink>b</think>c" = "<think>b</think>c"
  /\ clean (clean "<th<think>a</think>ink>b</think>c") = "c"
  /\ clean "<thi**nk>b</think>c" = "<think>b</think>c"
  /\ clean (clean "<thi**nk>b</think>c") = "c".
Proof. vm_compute. repeat split. Qed.

(** ** The orchestrator *)

Section OrchestratorClaims.

Import ChatOrchestrator.

Variables user_limit ip_limit window : Z.
Variable moderation : Direction -> string -> option (list string).
Variable fail_open : bool.
Variable remote : Mode -> Router.Specialist -> string
                  -> option InferenceResult.
Variable is_identity_question : string -> bool.
Variable identity_response : Router.Specialist -> string.
Variable persistence_up : bool.
Variable refusal : string.
Variables code_tokens math_tokens : list string.
Variable score : nat -> Q.
Variable cap : Q.
Variables think_open think_close : string.
Variable artifacts : list string.

Lemma inference_calls_snoc (l : list Call) (c : Call) :
  inference_calls (l ++ [c]) =
  inference_calls l
  ++ match c with CallInference _ _ => [c] | _ => [] end.
Proof. unfold inference_calls. rewrite List.filter_app. now destruct c. Qed.

Lemma save_calls_snoc (l : list Call) (c : Call) :
  save_calls (l ++ [c]) =
  save_calls l ++ match c with CallSave _ => [c] | _ => [] end.
Proof. unfold save_calls. rewrite List.filter_app. now destruct c. Qed.

Lemma quiet_ret {A} (a : A) : quiet (ret a).
Proof. now intros w. Qed.

Lemma quiet_fail {A} (f : Failure) : quiet (@fail A f).
Proof. now intros w. Qed.

Lemma quiet_enter (st : Stage) : quiet (enter st).
Proof. now intros w. Qed.

Lemma quiet_warn : quiet warn.
Proof. now intros w. Qed.

Lemma quiet_call (c : Call) :
  match c with CallInference _ _ | CallSave _ => False | _ => True end ->
  quiet (call c).
Proof.
  intros Hc w. cbn. rewrite inference_calls_snoc, save_calls_snoc.
  destruct c; try contradiction; now rewrite !app_nil_r.
Qed.

Lemma quiet_bind {A B} (m : M A) (k : A -> M B) :
  quiet m -> (forall a, quiet (k a)) -> quiet (bind m k).
Proof.
  intros Hm Hk w. unfold bind. specialize (Hm w).
  destruct (m w) as [[f|a] w1]; [exact Hm|].
  cbn [snd] in Hm. destruct Hm as (M1 & M2 & M3).
  destruct (Hk a w1) as (K1 & K2 & K3).
  split; [|split]; congruence.
Qed.

(** A failed step ends the computation where it failed. *)
Lemma bind_failed {A B} (m : M A) (k : A -> M B) (w : World) (f : Failure) :
  fst (m w) = inl f -> bind m k w = (inl f, snd (m w)).
Proof. unfold bind. destruct (m w) as [[f'|a] w1]; cbn; congruence. Qed.

Lemma bind_passed {A B} (m : M A) (k : A -> M B) (w : World) (a : A) :
  fst (m w) = inr a -> bind m k w = k a (snd (m w)).
Proof. unfold bind. destruct (m w) as [[f'|a'] w1]; cbn; congruence. Qed.

Lemma quiet_limit (key : string) (max now : Z) :
  quiet (limit window key max now).
Proof.
  unfold limit. apply quiet_bind; [now apply quiet_call|].
  intros _ w.
  destruct (RateLimiter.check_available key max window now (store w))
    as [[v st] []]; now cbn.
Qed.

Lemma quiet_rate_check (p : Principal) (now : Z) :
  quiet (rate_check user_limit ip_limit window p now).
Proof.
  unfold rate_check.
  apply quiet_bind; [apply quiet_limit|]. intros vu.
  apply quiet_bind; [apply quiet_limit|]. intros vi.
  destruct (RateLimiter.enforce now vu); [apply quiet_fail|].
  destruct (RateLimiter.enforce now vi); [apply quiet_fail|].
  apply quiet_enter.
Qed.

Lemma quiet_input_safety (txt : string) :
  quiet (input_safety moderation fail_open txt).
Proof.
  unfold input_safety, classify.
  apply quiet_bind.
  - apply quiet_bind; [now apply quiet_call|]. intros _.
    destruct (moderation Input txt); [apply quiet_ret|].
    apply quiet_bind; [apply quiet_warn|]. intros _. apply quiet_ret.
  - intros v. destruct (sv_allowed v); [|apply quiet_fail].
    apply quiet_bind; [apply quiet_enter|]. intros _. apply quiet_ret.
Qed.

(** The rate-limit step fails exactly when a verdict refuses. *)
Lemma rate_check_outcome (p : Principal) (now : Z) (w : World) :
  if rate_refused user_limit ip_limit window p now (store w)
  then exists r,
      fst (rate_check user_limit ip_limit window p now w)
      = inl (RateLimited r)
  else fst (rate_check user_limit ip_limit window p now w) = inr tt.
Proof.
  unfold rate_refused, rate_check, limit, bind, call, warn, ret, fail, enter.
  cbn [store].
  destruct (RateLimiter.check_available (user_id p) user_limit window now
              (store w)) as [[vu st1] u1].
  destruct u1; cbn [store];
    destruct (RateLimiter.check_available (address p) ip_limit window now st1)
      as [[vi st2] u2];
    destruct u2; unfold RateLimiter.enforce;
    destruct (RateLimiter.allowed vu), (RateLimiter.allowed vi); cbn; eauto.
Qed.

(** The input-safety step fails exactly when the input is refused. *)
Lemma input_safety_outcome (txt : string) (w : World) :
  if input_refused moderation fail_open txt
  then exists ls,
      fst (input_safety moderation fail_open txt w) = inl (InputBlocked ls)
  else exists v, fst (input_safety moderation fail_open txt w) = inr v.
Proof.
  unfold input_refused, input_safety, classify, bind, call, warn, ret, fail,
    enter.
  destruct (moderation Input txt) as [[|l ls]|]; cbn; eauto.
  destruct fail_open; cbn; eauto.
Qed.

(** The inference step calls the model once, or twice when the stream
    failed: the one fallback to the synchronous call. *)
Lemma infer_falls_back_at_most_once
    (streaming : bool) (e : Router.Specialist) (txt : string) (w : World) :
  let w' := snd (infer remote is_identity_question identity_response
                   streaming e txt w) in
  exists l,
    inference_calls (calls w') = inference_calls (calls w) ++ l
    /\ (l = []
        \/ l = [CallInference (if streaming then Stream else Sync) e]
        \/ (streaming = true /\ remote Stream e txt = None
            /\ l = [CallInference Stream e; CallInference Sync e])).
Proof.
  unfold infer, attempt, bind, call, ret, fail, enter.
  destruct (is_identity_question txt); cbn.
  - exists []. now rewrite app_nil_r; auto.
  - destruct streaming; cbn.
    + destruct (remote Stream e txt) eqn:Es; cbn.
      * exists [CallInference Stream e].
        rewrite inference_calls_snoc. auto.
      * exists [CallInference Stream e; CallInference Sync e].
        destruct (remote Sync e txt); cbn;
          rewrite !inference_calls_snoc, <- app_assoc; auto 10.
    + exists [CallInference Sync e].
      destruct (remote Sync e txt); cbn; rewrite inference_calls_snoc; auto.
Qed.

(** C2. A request that fails the rate-limit check or the input-side
    safety check ends as RateLimited or InputBlocked, and on its way the
    pipeline calls neither the model nor the persistence and saves no
    message. *)
Theorem refused_requests_reach_no_model
    (p : Principal) (req : Schema.ChatRequest) (now : Z) (streaming : bool)
    (w : World) :
  rate_refused user_limit ip_limit window p now (store w) = true
  \/ input_refused moderation fail_open (Schema.text req) = true ->
  let res := send user_limit ip_limit window moderation fail_open remote
               is_identity_question identity_response persistence_up refusal
               code_tokens math_tokens score cap think_open think_close
               artifacts p req now streaming w in
  (exists f, fst res = inl f /\ stopped_early f = true)
  /\ inference_calls (calls (snd res)) = inference_calls (calls w)
  /\ save_calls (calls (snd res)) = save_calls (calls w)
  /\ saved (snd res) = saved w.
Proof.
  intros H res. subst res. unfold send.
  set (rest := fun _ : unit => bind (input_safety moderation fail_open (Schema.text req)) _).
  rewrite (bind_passed (enter Received) _ w tt) by reflexivity.
  set (w0 := snd (enter Received w)).
  assert (Hw0 : inference_calls (calls w0) = inference_calls (calls w)
                /\ save_calls (calls w0) = save_calls (calls w)
                /\ saved w0 = saved w) by apply quiet_enter.
  destruct Hw0 as (A1 & A2 & A3).
  destruct (quiet_rate_check p now w0) as (R1 & R2 & R3).
  pose proof (rate_check_outcome p now w0) as Hr.
  change (store w0) with (store w) in Hr.
  destruct (rate_refused user_limit ip_limit window p now (store w)) eqn:Er.
  - destruct Hr as [r Hr]. rewrite (bind_failed _ _ _ _ Hr). cbn [fst snd].
    split; [now exists (RateLimited r)|].
    split; [|split]; congruence.
  - destruct H as [H|H]; [discriminate H|].
    rewrite (bind_passed _ _ _ _ Hr). subst rest. cbv beta.
    set (w1 := snd (rate_check user_limit ip_limit window p now w0)) in *.
    destruct (quiet_input_safety (Schema.text req) w1) as (S1 & S2 & S3).
    pose proof (input_safety_outcome (Schema.text req) w1) as Hi.
    rewrite H in Hi. destruct Hi as [ls Hi].
    rewrite (bind_failed _ _ _ _ Hi). cbn [fst snd].
    split; [now exists (InputBlocked ls)|].
    split; [|split]; congruence.
Qed.

End OrchestratorClaims.

Lemma refused_requests_reach_no_model_witness :
  let res := ChatOrchestrator.demo "how to write malware" 30 true
               ChatOrchestrator.fresh in
  fst res = inl (ChatOrchestrator.InputBlocked ["illicit"])
  /\ ChatOrchestrator.inference_calls (ChatOrchestrator.calls (snd res)) = []
  /\ ChatOrchestrator.saved (snd res) = [].
Proof.
  intros res.
  destruct (refused_requests_reach_no_model 60 10 60
              ChatOrchestrator.strict_moderation true ChatOrchestrator.echo
              (fun _ => false) (fun _ => "") true "I cannot help with that."
              ["def"; "bug"] ["calculate"] (fun n => (Z.of_nat n # 2)%Q)
              (9 # 10) "<think>" "</think>" ["**"] ChatOrchestrator.alice
              (ChatOrchestrator.ask "how to write malware") 30 true
              ChatOrchestrator.fresh) as (_ & H1 & _ & H3).
  - right. reflexivity.
  - split; [reflexivity|]. split; [exact H1 | exact H3].
Defined.

(** A request that passes goes through every stage, calls the model once
    and saves the two messages. *)
Example accepted_request_runs_the_pipeline :
  let res := ChatOrchestrator.demo "what is a bug" 30 false
               ChatOrchestrator.fresh in
  ChatOrchestrator.trail (snd res)
  = [ChatOrchestrator.Received; ChatOrchestrator.RateChecked;
     ChatOrchestrator.InputSafetyChecked; ChatOrchestrator.Routed;
     ChatOrchestrator.Inferred; ChatOrchestrator.Cleaned;
     ChatOrchestrator.OutputSafetyChecked; ChatOrchestrator.Persisted;
     ChatOrchestrator.Responded]
  /\ ChatOrchestrator.inference_calls (ChatOrchestrator.calls (snd res))
     = [ChatOrchestrator.CallInference ChatOrchestrator.Sync
          Router.CodeSpecialist]
  /\ length (ChatOrchestrator.saved (snd res)) = 2.
Proof. vm_compute. repeat split. Qed.

(** ** Runs of the chat page *)

Section SignedOutRuns.

Import ChatPage PageRuns.







End SignedOutRuns.

Section PayloadRuns.

Import ChatPage PageRuns.

Lemma or_undefined_not_empty (o : option string) :
  JS.or_undefined o <> Some "".
Proof. unfold JS.or_undefined. now destruct o as [[|c t]|]. Qed.

(** X2. No payload of any run carries an empty conversation id: it is
    either undefined or the non-empty id of the route; every payload has
    mode "chat" and top_p 0.95. *)
Theorem payload_conversation_is_undefined_or_named
    (route user : option string) (evs : list Event) (r : ChatApi.Request) :
  In r (requests (effects (run evs (initial route user)))) ->
  ChatApi.conversation_id r <> Some ""
  /\ ChatApi.mode (ChatApi.meta r) = "chat"
  /\ ChatApi.top_p (ChatApi.meta r) = 95 # 100.
Proof.
  intros Hr.
  pose proof (run_payloadInvariant evs _
                (initial_payloadInvariant route user)) as (_ & _ & Hall).
  rewrite List.Forall_forall in Hall.
  destruct (Hall r Hr) as (cl & _ & ->). cbn.
  split; [apply or_undefined_not_empty|]. split; reflexivity.
Qed.

Lemma payload_conversation_is_undefined_or_named_witness :
  let r := streamRequest {| cl_conversationId := Some "";
                            cl_currentMessage := "hi";
                            cl_selectedModel := "auto" |} in
  ChatApi.conversation_id r <> Some "".
Proof.
  intros r.
  destruct (payload_conversation_is_undefined_or_named (Some "")
              (Some "user-1") [InputChange "hi"; SubmitClick] r) as (H & _).
  - left. reflexivity.
  - exact H.
Defined.

(** X7. [handleSend] makes a request exactly when the message has a
    character that is not white space, no stream is in progress and a user
    is signed in; the request is then the one stream call with the message
    as typed. *)
Theorem handleSend_sends_exactly_when_accepted (s : State) :
  (accepted s = true <->
   JS.all_white_space (message s) = false /\ isStreaming s = false
   /\ currentUser s <> None)
  /\ effects (handleSend s) =
     effects s
     ++ (if accepted s then [SendMessageStream (streamRequest (closureOf s))]
         else if JS.truthy (JS.trim (message s)) && negb (isStreaming s)
              then [Alert "Please log in to send messages"]
              else []).
Proof.
  split.
  - unfold accepted. rewrite !andb_true_iff, negb_true_iff.
    assert (Hb : JS.truthy (JS.trim (message s)) = true
                 <-> JS.all_white_space (message s) = false).
    { pose proof (blank_iff (message s)) as B.
      destruct (JS.truthy (JS.trim (message s))),
        (JS.all_white_space (message s)); intuition congruence. }
    rewrite Hb. destruct (currentUser s); intuition congruence.
  - destruct (accepted s) eqn:Ea.
    + now rewrite (handleSend_accepted s Ea).
    + unfold accepted in Ea. unfold handleSend.
      destruct (JS.truthy (JS.trim (message s))); cbn;
        [|now rewrite app_nil_r].
      destruct (isStreaming s); cbn; [now rewrite app_nil_r|].
      cbn in Ea. destruct (currentUser s); [discriminate Ea|reflexivity].
Qed.

End PayloadRuns.

Section StreamingRuns.

Import ChatPage PageRuns.

Lemma step_streaming (e : Event) (s : State) (cl : Closure) :
  isTerminal e = false ->
  streaming cl s ->
  streaming cl (step e s)
  /\ requests (effects (step e s)) = requests (effects s).
Proof.
  intros He [Hi Hc].
  destruct e; try discriminate He; cbn [step]; unfold with_callbacks;
    rewrite ?Hc; try (split; [split; assumption|reflexivity]).
  - destruct (nth_error _ _); (split; [split; assumption|reflexivity]).
  - rewrite handleSend_refused by now right. now split.
  - rewrite handleSend_refused by now right. now split.
  - unfold onMetadata. destruct (_ && _); cbn;
      rewrite ?requests_snoc, ?app_nil_r; (split; [split; assumption|reflexivity]).
  - unfold onSuccess. cbv zeta. destruct (negb _); cbn;
      rewrite ?requests_snoc, ?app_nil_r; (split; [split; assumption|reflexivity]).
Qed.

Lemma run_streaming (evs : list Event) (s : State) (cl : Closure) :
  forallb (fun e => negb (isTerminal e)) evs = true ->
  streaming cl s ->
  streaming cl (run evs s)
  /\ requests (effects (run evs s)) = requests (effects s).
Proof.
  revert s. induction evs as [|e evs IH]; intros s Hev Hs; [now split|].
  cbn in Hev. apply andb_true_iff in Hev as [He Hev].
  apply negb_true_iff in He. cbn [run].
  destruct (step_streaming e s cl He Hs) as [H1 H2].
  destruct (IH _ Hev H1) as [I1 I2]. split; [exact I1|congruence].
Qed.

(** X3. From an accepted send until the stream completes, fails or
    throws, nothing the user or the network does makes the page send again
    or leave the streaming state: the one stream call stays the only
    request and the submit button stays disabled. *)
Theorem no_second_request_while_streaming (s0 : State) (evs : list Event) :
  accepted s0 = true ->
  forallb (fun e => negb (isTerminal e)) evs = true ->
  let s1 := run evs (handleSend s0) in
  isStreaming s1 = true
  /\ submitDisabled s1 = true
  /\ inputDisabled s1 = true
  /\ requests (effects s1) =
     requests (effects s0) ++ [streamRequest (closureOf s0)].
Proof.
  intros Ha Hev s1.
  assert (Hs : streaming (closureOf s0) (handleSend s0))
    by (rewrite (handleSend_accepted s0 Ha); now split).
  destruct (run_streaming evs _ _ Hev Hs) as [[Hi _] Hr]. fold s1 in Hi, Hr.
  split; [exact Hi|].
  unfold submitDisabled, inputDisabled. rewrite Hi, !orb_true_r.
  split; [reflexivity|]. split; [reflexivity|].
  rewrite Hr, (handleSend_accepted s0 Ha). cbn [effects].
  now rewrite requests_snoc.
Qed.

Lemma no_second_request_while_streaming_witness :
  let s1 := run [StreamChunk "A"; InputChange "again"; SubmitClick; EnterKey;
                 ModelClick 2; MutationFailure]
              (handleSend ready) in
  isStreaming s1 = true
  /\ requests (effects s1) = [streamRequest (closureOf ready)].
Proof.
  intros s1.
  destruct (no_second_request_while_streaming ready
              [StreamChunk "A"; InputChange "again"; SubmitClick; EnterKey;
               ModelClick 2; MutationFailure]) as (H1 & _ & _ & H2);
    [reflexivity | reflexivity |].
  split; [exact H1 | exact H2].
Defined.

End StreamingRuns.

Section OutcomeRuns.

Import ChatPage PageRuns.

Lemma step_wired (e : Event) (s : State) : wired s -> wired (step e s).
Proof.
  intros Hw. destruct e; cbn [step]; try exact Hw.
  - destruct (nth_error _ _); exact Hw.
  - unfold handleSend. destruct (_ || _); [exact Hw|].
    cbn. destruct (currentUser s); [right; cbn; discriminate|exact Hw].
  - unfold handleSend. destruct (_ || _); [exact Hw|].
    cbn. destruct (currentUser s); [right; cbn; discriminate|exact Hw].
  - unfold with_callbacks, onMetadata.
    destruct (callbacks s); [|exact Hw]. destruct (_ && _); exact Hw.
  - unfold with_callbacks. destruct (callbacks s); exact Hw.
  - unfold with_callbacks. destruct (callbacks s) eqn:Ec; [|exact Hw].
    right. cbn. congruence.
  - unfold with_callbacks. destruct (callbacks s) eqn:Ec; [|exact Hw].
    right. cbn. congruence.
  - unfold with_callbacks. destruct (callbacks s) eqn:Ec; [|exact Hw].
    right. cbn. congruence.
  - unfold onSuccess. cbv zeta. destruct (negb _); exact Hw.
Qed.

Lemma run_wired (evs : list Event) (s : State) : wired s -> wired (run evs s).
Proof.
  revert s. induction evs as [|e evs IH]; intros s Hw; [exact Hw|].
  cbn [run]. apply IH. now apply step_wired.
Qed.

(** X4. Along a run driven through the page's controls, an open stream
    ends in one of three ways.  Completion and a thrown call leave the
    page idle: nothing on its way, the input usable, no bubble.  A
    reported error leaves exactly the fallback on its way, the dots shown
    and the input disabled, until the mutation settles; its failure adds
    no effect at all, not even an alert. *)
Theorem stream_outcomes_return_to_idle
    (route user : option string) (evs : list Event) :
  valid evs (initial route user) = true ->
  let s := run evs (initial route user) in
  0 < openStreams s ->
  (forall messageId, idle (step (StreamComplete messageId) s))
  /\ (forall err, idle (step (StreamThrow err) s))
  /\ (forall err,
         let failed := step (StreamError err) s in
         inFlight failed = 1
         /\ bubble failed = Dots
         /\ inputDisabled failed = true
         /\ idle (step MutationFailure failed)
         /\ effects (step MutationFailure failed) = effects failed
         /\ (forall data, idle (step (MutationSuccess data) failed))).
Proof.
  intros Hv s Ho.
  assert (H1 : oneAtATime s).
  { apply run_oneAtATime; [exact Hv|]. left. cbn. lia. }
  assert (H2 : wired s) by (apply run_wired; now left).
  destruct H1 as [(Hz & _ & _)|(Hone & Hi & Hp)]; [lia|].
  destruct H2 as [Hz|Hc]; [lia|].
  destruct (callbacks s) as [cl|] eqn:Ec; [clear Hc|congruence].
  clearbody s.
  split; [|split].
  - intros mid. cbn [step]. unfold with_callbacks. rewrite Ec.
    unfold idle, inFlight, inputDisabled, bubble, isPending. cbn.
    rewrite Hone, Hp. repeat split.
  - intros err. cbn [step]. unfold with_callbacks. rewrite Ec.
    unfold idle, inFlight, inputDisabled, bubble, isPending. cbn.
    rewrite Hone, Hp. repeat split.
  - intros err. cbn [step]. unfold with_callbacks. rewrite Ec.
    unfold idle, inFlight, inputDisabled, bubble, isPending, onSuccess.
    cbn. rewrite Hone, Hp. cbn.
    split; [reflexivity|]. split; [reflexivity|]. split; [reflexivity|].
    split; [repeat split|]. split; [reflexivity|].
    intros data. destruct (negb _); cbn; rewrite Hone, Hp; repeat split.
Qed.

Lemma stream_outcomes_return_to_idle_witness :
  let s := run [InputChange "hi"; SubmitClick; StreamChunk "A"]
             (initial None (Some "user-1")) in
  idle (step (StreamComplete "m-1") s)
  /\ bubble (step (StreamError boom) s) = Dots
  /\ idle (step MutationFailure (step (StreamError boom) s)).
Proof.
  intros s.
  destruct (stream_outcomes_return_to_idle None (Some "user-1")
              [InputChange "hi"; SubmitClick; StreamChunk "A"])
    as (H1 & _ & H3); [reflexivity | vm_compute; lia |].
  destruct (H3 boom) as (_ & Hb & _ & Hf & _).
  split; [apply H1|]. split; [exact Hb | exact Hf].
Defined.

End OutcomeRuns.

Section NewConversationRuns.

Import ChatPage PageRuns.

Lemma run_app (a b : list Event) (s : State) :
  run (a ++ b) s = run b (run a s).
Proof. revert s. induction a as [|e a IH]; intros s; [reflexivity|apply IH]. Qed.

Lemma navigations_snoc (l : list Effect) (e : Effect) :
  navigations (l ++ [e]) =
  navigations l ++ match e with Navigate p => [p] | _ => [] end.
Proof. unfold navigations. rewrite omap_app. now destruct e. Qed.

Lemma invalidations_snoc (l : list Effect) (e : Effect) :
  invalidations (l ++ [e]) =
  invalidations l ++ match e with InvalidateQueries k => [k] | _ => [] end.
Proof. unfold invalidations. rewrite omap_app. now destruct e. Qed.

(** The first metadata of a send from a new conversation takes the page
    to the announced conversation. *)
Lemma metadata_on_new_conversation (s0 : State) (md : ChatApi.Metadata) :
  accepted s0 = true ->
  JS.truthy_opt (conversationId s0) = false ->
  JS.truthy (ChatApi.md_conversation_id md) = true ->
  step (StreamMetadata md) (handleSend s0) =
  navigateToConversation (ChatApi.md_conversation_id md)
    (emit (InvalidateQueries QConversations) (handleSend s0)).
Proof.
  intros Ha Hc Hm. cbn [step]. unfold with_callbacks, onMetadata.
  rewrite (handleSend_accepted s0 Ha). cbn [callbacks closureOf cl_conversationId].
  now rewrite Hc, Hm.
Qed.

(** X5. For a send from a new conversation whose stream announces a
    conversation id, the page moves to that conversation, yet on
    completion the conversation query it invalidates is the one of the id
    captured at send time, the undefined one. *)
Theorem completion_invalidates_captured_conversation
    (s0 : State) (md : ChatApi.Metadata) (chunks : list string)
    (messageId : string) :
  accepted s0 = true ->
  JS.truthy_opt (conversationId s0) = false ->
  JS.truthy (ChatApi.md_conversation_id md) = true ->
  let s2 := run (StreamMetadata md :: map StreamChunk chunks
                 ++ [StreamComplete messageId]) (handleSend s0) in
  conversationId s2 = Some (ChatApi.md_conversation_id md)
  /\ navigations (effects s2) =
     navigations (effects s0) ++ ["/app/c/" +:+ ChatApi.md_conversation_id md]
  /\ invalidations (effects s2) =
     invalidations (effects s0)
     ++ [QConversations; QConversation (conversationId s0); QConversations].
Proof.
  intros Ha Hc Hm s2. subst s2.
  change (StreamMetadata md :: map StreamChunk chunks ++ [StreamComplete messageId])
    with ([StreamMetadata md] ++ map StreamChunk chunks
          ++ [StreamComplete messageId]).
  rewrite !run_app. cbn [run].
  rewrite (metadata_on_new_conversation s0 md Ha Hc Hm).
  rewrite run_chunks
    by (rewrite (handleSend_accepted s0 Ha); cbn; discriminate).
  rewrite (handleSend_accepted s0 Ha).
  cbn [step]. unfold with_callbacks. cbn.
  rewrite !navigations_snoc, !invalidations_snoc, !app_nil_r, <- !app_assoc.
  repeat split.
Qed.

Lemma completion_invalidates_captured_conversation_witness :
  let s2 := run [StreamMetadata announced; StreamChunk "A";
                 StreamComplete "m-1"] (handleSend ready) in
  conversationId s2 = Some "c-1"
  /\ invalidations (effects s2) =
     [QConversations; QConversation None; QConversations].
Proof.
  intros s2.
  destruct (completion_invalidates_captured_conversation ready announced
              ["A"] "m-1") as (H1 & _ & H3); try reflexivity.
  split; [exact H1 | exact H3].
Defined.

(** X6. When a send from a new conversation fails after its stream has
    announced a conversation id, the fallback still asks for a new
    conversation (its conversation id is undefined), and when it succeeds
    the page stays on the announced conversation: it invalidates the
    conversation the fallback names but does not navigate to it. *)
Theorem fallback_after_metadata_asks_for_new_conversation
    (s0 : State) (md : ChatApi.Metadata) (err : JS.Error)
    (data : ChatApi.Response) :
  accepted s0 = true ->
  JS.truthy_opt (conversationId s0) = false ->
  JS.truthy (ChatApi.md_conversation_id md) = true ->
  let s3 := run [StreamMetadata md; StreamError err; MutationSuccess data]
              (handleSend s0) in
  syncSends (effects s3) =
    syncSends (effects s0) ++ [fallbackRequest (closureOf s0)]
  /\ ChatApi.conversation_id (fallbackRequest (closureOf s0)) = None
  /\ conversationId s3 = Some (ChatApi.md_conversation_id md)
  /\ navigations (effects s3) =
     navigations (effects s0) ++ ["/app/c/" +:+ ChatApi.md_conversation_id md]
  /\ invalidations (effects s3) =
     invalidations (effects s0)
     ++ [QConversations;
         QConversation (Some (ChatApi.data_conversation_id data));
         QConversations].
Proof.
  intros Ha Hc Hm s3. subst s3. cbn [run].
  rewrite (metadata_on_new_conversation s0 md Ha Hc Hm).
  rewrite (handleSend_accepted s0 Ha).
  cbn [step]. unfold with_callbacks, onSuccess. cbn. rewrite Hm. cbn.
  unfold syncSends, navigations, invalidations, JS.or_undefined.
  rewrite Hc, !omap_app. cbn. rewrite !app_nil_r, <- !app_assoc.
  repeat split.
Qed.

Lemma fallback_after_metadata_asks_for_new_conversation_witness :
  let s3 := run [StreamMetadata announced; StreamError boom;
                 MutationSuccess {| ChatApi.data_conversation_id := "c-2" |}]
              (handleSend ready) in
  conversationId s3 = Some "c-1"
  /\ navigations (effects s3) = ["/app/c/c-1"]
  /\ ChatApi.conversation_id (fallbackRequest (closureOf ready)) = None.
Proof.
  intros s3.
  destruct (fallback_after_metadata_asks_for_new_conversation ready announced
              boom {| ChatApi.data_conversation_id := "c-2" |})
    as (_ & H2 & H3 & H4 & _); try reflexivity.
  split; [exact H3|]. split; [exact H4 | exact H2].
Defined.

End NewConversationRuns.

Section AlertRuns.

Import ChatPage PageRuns.

Lemma or_else_nonempty (a b : string) : b <> "" -> JS.or_else a b <> "".
Proof. unfold JS.or_else. destruct a; [auto|discriminate]. Qed.

Lemma alertInvariant_emit (s s' : State) (e : Effect) :
  effects s' = effects s ++ [e] ->
  match e with Alert t => alertShape t | _ => True end ->
  alertInvariant s -> alertInvariant s'.
Proof.
  unfold alertInvariant. intros -> He Hs. rewrite alerts_snoc.
  apply Forall_app. split; [exact Hs|]. destruct e; auto.
Qed.

Lemma alertInvariant_ext (s s' : State) :
  effects s' = effects s -> alertInvariant s -> alertInvariant s'.
Proof. unfold alertInvariant. now intros ->. Qed.

Lemma error_alert_shape (err : JS.Error) (fallback : string) :
  fallback <> "" ->
  alertShape ("Error: " +:+ JS.or_else (JS.message err) fallback).
Proof.
  intros H. right. exists (JS.or_else (JS.message err) fallback).
  split; [now apply or_else_nonempty|reflexivity].
Qed.

Lemma step_alertInvariant (e : Event) (s : State) :
  alertInvariant s -> alertInvariant (step e s).
Proof.
  intros Hs. destruct e; cbn [step]; unfold with_callbacks;
    try (now apply (alertInvariant_ext s)).
  - destruct (nth_error _ _); [|exact Hs]. now apply (alertInvariant_ext s).
  - unfold handleSend. destruct (_ || _); [exact Hs|]. cbn.
    destruct (currentUser s).
    + now eapply (alertInvariant_emit s); [reflexivity|exact I|].
    + eapply (alertInvariant_emit s); [reflexivity| |exact Hs]. now left.
  - unfold handleSend. destruct (_ || _); [exact Hs|]. cbn.
    destruct (currentUser s).
    + now eapply (alertInvariant_emit s); [reflexivity|exact I|].
    + eapply (alertInvariant_emit s); [reflexivity| |exact Hs]. now left.
  - destruct (callbacks s); [|exact Hs]. unfold onMetadata.
    destruct (_ && _); [|exact Hs].
    eapply (alertInvariant_emit (emit (InvalidateQueries QConversations) s));
      [reflexivity|exact I|].
    now eapply (alertInvariant_emit s); [reflexivity|exact I|].
  - destruct (callbacks s); [|exact Hs]. now apply (alertInvariant_ext s).
  - destruct (callbacks s); [|exact Hs].
    eapply (alertInvariant_emit
              (emit (InvalidateQueries (QConversation (cl_conversationId c)))
                 s)); [reflexivity|exact I|].
    now eapply (alertInvariant_emit s); [reflexivity|exact I|].
  - destruct (callbacks s); [|exact Hs].
    eapply (alertInvariant_emit
              (emit (Alert ("Error: " +:+
                            JS.or_else (JS.message error)
                              "Failed to send message. Please try again."))
                 s)); [reflexivity|exact I|].
    eapply (alertInvariant_emit s); [reflexivity| |exact Hs].
    now apply error_alert_shape.
  - destruct (callbacks s); [|exact Hs].
    eapply (alertInvariant_emit s); [reflexivity| |exact Hs].
    now apply error_alert_shape.
  - apply (alertInvariant_ext (onSuccess data s)); [reflexivity|].
    unfold onSuccess. cbv zeta.
    assert (H2 : alertInvariant
              (emit (InvalidateQueries QConversations)
                 (emit (InvalidateQueries
                          (QConversation
                             (Some (ChatApi.data_conversation_id data)))) s))).
    { eapply (alertInvariant_emit
                (emit (InvalidateQueries
                         (QConversation
                            (Some (ChatApi.data_conversation_id data)))) s));
        [reflexivity|exact I|].
      now eapply (alertInvariant_emit s); [reflexivity|exact I|]. }
    destruct (negb _); [|exact H2].
    eapply alertInvariant_emit; [..|exact H2]; try reflexivity.
Qed.

Lemma run_alertInvariant (evs : list Event) (s : State) :
  alertInvariant s -> alertInvariant (run evs s).
Proof.
  revert s. induction evs as [|e evs IH]; intros s Hs; [exact Hs|].
  cbn [run]. apply IH. now apply step_alertInvariant.
Qed.

(** X8. Every alert the chat page raises is either the sign-in notice or
    "Error: " followed by a non-empty detail: an error without a message
    still yields text, never a bare "Error: ". *)
Theorem alerts_are_never_bare
    (route user : option string) (evs : list Event) (t : string) :
  In t (alerts (effects (run evs (initial route user)))) -> alertShape t.
Proof.
  intros Ht.
  assert (H : alertInvariant (run evs (initial route user)))
    by (apply run_alertInvariant; constructor).
  unfold alertInvariant in H. rewrite List.Forall_forall in H. now apply H.
Qed.

Lemma alerts_are_never_bare_witness :
  alertShape "Error: Failed to send message. Please try again.".
Proof.
  apply (alerts_are_never_bare None (Some "user-1")
           [InputChange "hi"; SubmitClick; StreamError {| JS.message := "" |}]).
  left. reflexivity.
Defined.

End AlertRuns.

(** ** The sidebar of the chat page *)

Section SidebarFacts.

Import Sidebar.

(** A send right after a route change goes to that route's
    conversation. *)
Lemma send_from_route (p : ChatPage.State) (m : string) :
  JS.truthy (JS.trim m) = true ->
  ChatPage.isStreaming p = false ->
  ChatPage.currentUser p <> None ->
  ChatPage.requests
    (ChatPage.effects
       (ChatPage.handleSend (ChatPage.setMessage m p)))
  = ChatPage.requests (ChatPage.effects p)
    ++ [payloadFor (ChatPage.conversationId p) m (ChatPage.selectedModel p)].
Proof.
  intros Hm Hi Hu.
  assert (Ha : ChatPage.accepted (ChatPage.setMessage m p) = true).
  { unfold ChatPage.accepted, ChatPage.setMessage.
    cbn [ChatPage.message ChatPage.isStreaming ChatPage.currentUser].
    rewrite Hm, Hi. now destruct (ChatPage.currentUser p). }
  rewrite (handleSend_accepted _ Ha). cbn [ChatPage.effects].
  now rewrite requests_snoc.
Qed.

(** X9. The next message goes where the sidebar took the page: after a
    click on a conversation, or after a new conversation was created, the
    payload carries that conversation's id; after a delete succeeded or
    the open conversation turned out missing, it carries none, so a new
    conversation is asked for. *)
Theorem next_message_follows_the_sidebar
    (st : State) (id m : string) :
  JS.truthy id = true ->
  JS.truthy (JS.trim m) = true ->
  ChatPage.isStreaming (page st) = false ->
  ChatPage.currentUser (page st) <> None ->
  let sent := fun e =>
    ChatPage.requests
      (ChatPage.effects
         (page (run [e; Page (ChatPage.InputChange m);
                     Page ChatPage.SubmitClick] st))) in
  let before := ChatPage.requests (ChatPage.effects (page st)) in
  let model := ChatPage.selectedModel (page st) in
  sent (ConversationClick id) = before ++ [payloadFor (Some id) m model]
  /\ sent (CreateSuccess id) = before ++ [payloadFor (Some id) m model]
  /\ ChatApi.conversation_id (payloadFor (Some id) m model) = Some id
  /\ (exists r, sent DeleteSuccess = before ++ [r]
                /\ ChatApi.conversation_id r = None
                /\ ChatApi.message r = m)
  /\ (exists r, sent ConversationError = before ++ [r]
                /\ ChatApi.conversation_id r = None
                /\ ChatApi.message r = m).
Proof.
  intros Hid Hm Hi Hu sent before model. subst sent before model.
  cbn [run step onPage page ChatPage.step].
  split; [|split; [|split; [|split]]].
  - rewrite send_from_route; try assumption.
    cbn. now rewrite requests_snoc, app_nil_r.
  - rewrite send_from_route; try assumption.
    cbn. now rewrite !requests_snoc, !app_nil_r.
  - cbn. unfold JS.or_undefined. cbn. now rewrite Hid.
  - unfold deleteSuccess. cbv zeta.
    destruct (JS.truthy_opt _) eqn:Et; rewrite send_from_route; try assumption.
    + exists (payloadFor None m (ChatPage.selectedModel (page st))).
      split; [|split; reflexivity].
      cbn. now rewrite !requests_snoc, !app_nil_r.
    + exists (payloadFor (ChatPage.conversationId (page st)) m
                (ChatPage.selectedModel (page st))).
      split; [|split; [|reflexivity]].
      * cbn. now rewrite !requests_snoc, !app_nil_r.
      * cbn in Et |- *. unfold JS.or_undefined. now rewrite Et.
  - unfold conversationNotFound.
    destruct (JS.truthy_opt _) eqn:Et; rewrite send_from_route; try assumption.
    + exists (payloadFor None m (ChatPage.selectedModel (page st))).
      split; [|split; reflexivity].
      cbn. now rewrite !requests_snoc, !app_nil_r.
    + exists (payloadFor (ChatPage.conversationId (page st)) m
                (ChatPage.selectedModel (page st))).
      split; [|split; [|reflexivity]]; [reflexivity|].
      cbn. unfold JS.or_undefined. now rewrite Et.
Qed.

Lemma next_message_follows_the_sidebar_witness :
  ChatPage.requests
    (ChatPage.effects
       (page (run [ConversationClick "c-9"; Page (ChatPage.InputChange "hi");
                   Page ChatPage.SubmitClick] opened)))
  = [payloadFor (Some "c-9") "hi" "auto"].
Proof.
  destruct (next_message_follows_the_sidebar opened "c-9" "hi") as (H & _);
    [reflexivity | reflexivity | reflexivity | discriminate | exact H].
Defined.

Lemma deletes_snoc (l : list Call) (c : Call) :
  deletes (l ++ [c]) =
  deletes l ++ match c with DeleteConversation id => [id] | _ => [] end.
Proof. unfold deletes. rewrite omap_app. now destruct c. Qed.

(** X10. The conversations the sidebar asks to delete are exactly those
    whose confirm dialog was accepted, in the order of the clicks; a
    declined dialog deletes nothing, and no other event does. *)
Theorem deletes_are_the_confirmed_clicks (evs : list Event) (st : State) :
  deletes (calls (run evs st)) = deletes (calls st) ++ confirmedDeletes evs.
Proof.
  revert st. induction evs as [|e evs IH]; intros st.
  - cbn. now rewrite app_nil_r.
  - cbn [run]. rewrite IH.
    destruct e as [| | | |convId []| | |]; cbn;
      rewrite ?deletes_snoc, ?app_nil_r, <- ?app_assoc; reflexivity.
Qed.

End SidebarFacts.

(** ** The model menu *)

Section ModelMenuFacts.

Import ModelMenu.

Lemma selectedModel_of_offered (value : string) :
  In value ChatPage.modelIds ->
  exists m, ModelSelector.selectedModel value = Some m
            /\ ModelSelector.id m = value
            /\ List.filter (fun b : bool => b) (highlighted value) = [true].
Proof.
  intros Hin. cbn in Hin.
  destruct Hin as [<-|[<-|[<-|[<-|[]]]]]; eexists; repeat split.
Qed.

Lemma eqb_false_of_neq (a b : string) : a <> b -> String.eqb a b = false.
Proof. intros H. now apply String.eqb_neq. Qed.

(** The entry the button shows for an offered value is the entry of the
    menu at some position [i], it carries the value as its id, and the menu
    marks position [i] and no other. *)
Lemma shown_entry_is_the_marked_one (value : string) :
  In value ChatPage.modelIds ->
  exists (i : nat) (m : ModelSelector.Entry),
    ModelSelector.models !! i = Some m
    /\ ModelSelector.selectedModel value = Some m
    /\ ModelSelector.id m = value
    /\ highlighted value =
       <[i:=true]> (replicate (length ModelSelector.models) false)
    /\ List.filter (fun b : bool => b) (highlighted value) = [true].
Proof.
  intros Hin. cbn in Hin.
  destruct Hin as [<-|[<-|[<-|[<-|[]]]]];
    [exists 0%nat | exists 1%nat | exists 2%nat | exists 3%nat];
    eexists; repeat split.
Qed.

(** X11. For a value among the four ids the button shows the entry of
    that id, and the menu marks the position of that very entry and no
    other; for any other value the button falls back to the first entry,
    Auto, and the menu marks none. *)
Theorem selector_shows_value_or_auto (value : string) :
  (In value ChatPage.modelIds ->
   exists (i : nat) (m : ModelSelector.Entry),
     ModelSelector.models !! i = Some m
     /\ ModelSelector.selectedModel value = Some m
     /\ ModelSelector.id m = value
     /\ highlighted value =
        <[i:=true]> (replicate (length ModelSelector.models) false)
     /\ List.filter (fun b : bool => b) (highlighted value) = [true])
  /\ (~ In value ChatPage.modelIds ->
      ModelSelector.selectedModel value = head ModelSelector.models
      /\ (ModelSelector.id <$> ModelSelector.selectedModel value) = Some "auto"
      /\ highlighted value = [false; false; false; false]).
Proof.
  split; [apply shown_entry_is_the_marked_one|].
  intros Hn. cbn in Hn.
  assert (N1 : value <> "auto")
    by (intros ->; apply Hn; auto 10).
  assert (N2 : value <> "theory-specialist")
    by (intros ->; apply Hn; auto 10).
  assert (N3 : value <> "code-specialist")
    by (intros ->; apply Hn; auto 10).
  assert (N4 : value <> "math-specialist")
    by (intros ->; apply Hn; auto 10).
  unfold ModelSelector.selectedModel, highlighted, ModelSelector.models.
  cbn [find map ModelSelector.id].
  rewrite !(String.eqb_sym _ value).
  rewrite (eqb_false_of_neq _ _ N1), (eqb_false_of_neq _ _ N2),
    (eqb_false_of_neq _ _ N3), (eqb_false_of_neq _ _ N4).
  repeat split.
Qed.

Lemma selector_shows_value_or_auto_witness :
  ModelSelector.selectedModel "code-specialist" = ModelSelector.models !! 2%nat
  /\ highlighted "code-specialist" = [false; false; true; false]
  /\ (ModelSelector.id <$> ModelSelector.selectedModel "gpt-4") = Some "auto"
  /\ highlighted "gpt-4" = [false; false; false; false].
Proof.
  destruct (selector_shows_value_or_auto "gpt-4") as [_ H].
  destruct (selector_shows_value_or_auto "code-specialist") as [G _].
  destruct G as (i & m & G1 & G2 & _ & G4 & _); [cbn; auto|].
  destruct H as (_ & H2 & H3).
  - cbn. intros [H|[H|[H|[H|[]]]]]; discriminate H.
  - assert (Hi : i = 2%nat).
    { destruct i as [|[|[|i]]]; try discriminate G4; reflexivity. }
    subst i. split; [now rewrite G2, G1|].
    split; [rewrite G4; reflexivity|].
    split; [exact H2 | exact H3].
Defined.

Lemma click_counts (c : Click) (s : State) :
  Forall (fun i => In i ChatPage.modelIds) (reported s) ->
  Forall (fun i => In i ChatPage.modelIds) (reported (click c s))
  /\ length (reported (click c s)) + opened (click c s)
     <= length (reported s) + opened s + (if isButton c then 1 else 0).
Proof.
  intros Hr. unfold opened. destruct c; cbn.
  - split; [exact Hr|]. destruct (isOpen s); cbn; lia.
  - destruct (isOpen s) eqn:Eo; cbn; rewrite ?Eo; split; try exact Hr; lia.
  - destruct (isOpen s) eqn:Eo; [|rewrite Eo; split; [exact Hr|lia]].
    destruct (nth_error ModelSelector.models entry) as [m|] eqn:En; cbn;
      rewrite ?Eo.
    + split.
      * apply Forall_app. split; [exact Hr|].
        constructor; [|constructor]. now apply (model_entry_offered entry).
      * rewrite length_app. cbn. lia.
    + split; [exact Hr|lia].
Qed.

(** X12. Whatever is clicked on the model menu, every id it passes to
    [onChange] is one of the four it offers, and it has passed no more ids
    than the button was clicked: each pick closes the menu, and a closed
    menu passes nothing. *)
Theorem menu_reports_offered_ids (cs : list Click) :
  let s := clicks cs closed in
  Forall (fun i => In i ChatPage.modelIds) (reported s)
  /\ length (reported s) + opened s <= length (List.filter isButton cs).
Proof.
  cbv zeta.
  assert (G : forall s,
             Forall (fun i => In i ChatPage.modelIds) (reported s) ->
             Forall (fun i => In i ChatPage.modelIds) (reported (clicks cs s))
             /\ length (reported (clicks cs s)) + opened (clicks cs s)
                <= length (reported s) + opened s
                   + length (List.filter isButton cs)).
  { induction cs as [|c cs IH]; intros s Hs; [cbn; split; [exact Hs|lia]|].
    cbn [clicks]. destruct (click_counts c s Hs) as [C1 C2].
    destruct (IH _ C1) as [I1 I2]. split; [exact I1|].
    cbn [List.filter]. destruct (isButton c); cbn [length]; lia. }
  destruct (G closed) as [G1 G2]; [constructor|].
  split; [exact G1|]. cbn in G2. lia.
Qed.

(** X13. On the chat page the menu never falls back: along every run the
    entry the button shows has the id of the page's selected model, and an
    accepted send carries that id as its model. *)
Theorem selector_label_matches_sent_model
    (route user : option string) (evs : list ChatPage.Event) :
  let s := ChatPage.run evs (ChatPage.initial route user) in
  exists m,
    ModelSelector.selectedModel (ChatPage.selectedModel s) = Some m
    /\ ModelSelector.id m = ChatPage.selectedModel s
    /\ (ChatPage.accepted s = true ->
        exists r,
          ChatPage.requests (ChatPage.effects (ChatPage.handleSend s))
          = ChatPage.requests (ChatPage.effects s) ++ [r]
          /\ ChatApi.model (ChatApi.meta r) = ModelSelector.id m).
Proof.
  intros s.
  pose proof (run_payloadInvariant evs _
                (initial_payloadInvariant route user)) as (Hm & _ & _).
  fold s in Hm.
  destruct (selectedModel_of_offered _ Hm) as (m & H1 & H2 & _).
  exists m. split; [exact H1|]. split; [exact H2|].
  intros Ha. exists (ChatPage.streamRequest (ChatPage.closureOf s)).
  rewrite (handleSend_accepted s Ha). cbn [ChatPage.effects].
  rewrite requests_snoc. split; [reflexivity|]. cbn. now rewrite H2.
Qed.

Lemma selector_label_matches_sent_model_witness :
  let s := ChatPage.run [ChatPage.ModelClick 2; ChatPage.InputChange "hi"]
             (ChatPage.initial None (Some "user-1")) in
  (ModelSelector.id <$> ModelSelector.selectedModel (ChatPage.selectedModel s))
  = Some "code-specialist".
Proof.
  intros s.
  destruct (selector_label_matches_sent_model None (Some "user-1")
              [ChatPage.ModelClick 2; ChatPage.InputChange "hi"])
    as (m & H1 & H2 & _).
  fold s in H1, H2. rewrite H1. cbn. rewrite H2. reflexivity.
Defined.

End ModelMenuFacts.

(** ** The sign-up and sign-in pages *)

Section TrimTwice.

Import JS.

(** A string that does not start with white space. *)
Lemma trimStart_fixed (s : string) :
  match s with
  | EmptyString => True
  | String c _ => is_white_space c = false
  end -> trimStart s = s.
Proof. destruct s as [|c t]; [reflexivity|]. cbn. now intros ->. Qed.

Lemma trimStart_head (s : string) :
  match trimStart s with
  | EmptyString => True
  | String c _ => is_white_space c = false
  end.
Proof.
  induction s as [|c t IH]; [exact I|]. cbn.
  destruct (is_white_space c) eqn:Ec; [exact IH|exact Ec].
Qed.

Lemma trimEnd_head (s : string) :
  match s with
  | EmptyString => True
  | String c _ => is_white_space c = false
  end ->
  match trimEnd s with
  | EmptyString => True
  | String c _ => is_white_space c = false
  end.
Proof.
  destruct s as [|c t]; [trivial|]. intros Hc. cbn.
  destruct (trimEnd t); [now rewrite Hc|exact Hc].
Qed.

Lemma trimEnd_twice (s : string) : trimEnd (trimEnd s) = trimEnd s.
Proof.
  induction s as [|c t IH]; [reflexivity|]. cbn.
  destruct (trimEnd t) as [|c' t'] eqn:Et.
  - destruct (is_white_space c) eqn:Ec; [reflexivity|]. cbn. now rewrite Ec.
  - cbn [trimEnd] in *. rewrite IH. reflexivity.
Qed.

(** Trimming a trimmed string changes nothing. *)
Lemma trim_twice (s : string) : trim (trim s) = trim s.
Proof.
  unfold trim.
  rewrite (trimStart_fixed (trimEnd (trimStart s)))
    by (apply trimEnd_head, trimStart_head).
  apply trimEnd_twice.
Qed.

End TrimTwice.

Section SignupFacts.

Import SignupPage.

Lemma auth_navigations_snoc (l : list Auth.Effect) (e : Auth.Effect) :
  Auth.navigations (l ++ [e]) =
  Auth.navigations l ++ match e with Auth.Navigate p => [p] | _ => [] end.
Proof. unfold Auth.navigations. rewrite omap_app. now destruct e. Qed.

Lemma or_else_truthy (a b : string) :
  JS.truthy b = true -> JS.truthy (JS.or_else a b) = true.
Proof. unfold JS.or_else. now destruct a. Qed.

(** X14. Sign-up with a blank email, a blank password or a password of
    fewer than six characters calls nothing and navigates nowhere: it
    shows one of the three messages, in that order of precedence, and
    stops loading. *)
Theorem signup_rejects_bad_inputs (env : Auth.Env) (s : State) :
  inputsOk s = false ->
  let s' := handleEmailSignup env s in
  effects s' = effects s
  /\ loading s' = false
  /\ error s' =
     (if negb (JS.truthy (JS.trim (email s)))
      then "Please enter your email address"
      else if negb (JS.truthy (JS.trim (password s)))
           then "Please enter a password"
           else "Password must be at least 6 characters").
Proof.
  unfold inputsOk, handleEmailSignup. intros H.
  cbn [email password displayName setError setLoading].
  destruct (JS.truthy (JS.trim (email s))); cbn [negb]; [|now cbn].
  destruct (JS.truthy (JS.trim (password s))); cbn [negb]; [|now cbn].
  cbn [andb] in H. rewrite Nat.ltb_antisym, H. now cbn.
Qed.

Lemma signup_rejects_bad_inputs_witness :
  let s' := handleEmailSignup
              {| Auth.isDevMode := true; Auth.isBackendAuth := false;
                 Auth.sdkImport := None; Auth.call := None |}
              (filled "a@b.c" "      " "Ann") in
  effects s' = [] /\ error s' = "Please enter a password".
Proof.
  intros s'.
  destruct (signup_rejects_bad_inputs
              {| Auth.isDevMode := true; Auth.isBackendAuth := false;
                 Auth.sdkImport := None; Auth.call := None |}
              (filled "a@b.c" "      " "Ann")) as (H1 & _ & H3);
    [reflexivity|].
  split; [exact H1 | exact H3].
Defined.

Lemma settle_outcome (fallback : string) (o : option JS.Error) (s : State) :
  JS.truthy fallback = true ->
  error s = "" ->
  loading (settle fallback o s) = false
  /\ Auth.navigations (effects (settle fallback o s)) =
     Auth.navigations (effects s)
     ++ (if JS.truthy (error (settle fallback o s)) then [] else ["/app"]).
Proof.
  intros Hf He. unfold settle. destruct o as [err|]; cbn.
  - rewrite (or_else_truthy _ _ Hf). now rewrite app_nil_r.
  - rewrite He, auth_navigations_snoc. now cbn.
Qed.

Lemma settle_result (fallback : string) (o : option JS.Error) (s : State) :
  JS.truthy fallback = true ->
  error s = "" ->
  match o with
  | None =>
      error (settle fallback o s) = ""
      /\ Auth.navigations (effects (settle fallback o s)) =
         Auth.navigations (effects s) ++ ["/app"]
  | Some err =>
      error (settle fallback o s) = JS.or_else (JS.message err) fallback
      /\ JS.truthy (error (settle fallback o s)) = true
      /\ Auth.navigations (effects (settle fallback o s)) =
         Auth.navigations (effects s)
  end.
Proof.
  intros Hf He. unfold settle. destruct o as [err|]; cbn.
  - split; [reflexivity|]. split; [now apply or_else_truthy | reflexivity].
  - split; [exact He|]. now rewrite auth_navigations_snoc.
Qed.

(** X15. Each handler of the sign-up page ends with loading off, and
    navigates to /app exactly when it ends with no error shown; in every
    other case it does not navigate.  What the [try] block throws decides
    which: the rejection of the call through the [auth] object, or through
    the SDK the failure of the import or else the rejection of the call.
    Inputs that fail the checks leave an error and no navigation.  With
    nothing thrown the handler shows no error and navigates to /app once; with an error thrown it shows the error's message, or the
    handler's own text when the message is empty, which is never the empty
    string, and does not navigate.  The Google handler in dev mode or with
    backend auth shows its notice, calls nothing and does not navigate. *)
Theorem signup_navigates_iff_no_error (env : Auth.Env) (s : State) :
  let done h :=
    loading (h env s) = false
    /\ Auth.navigations (effects (h env s)) =
       Auth.navigations (effects s)
       ++ (if JS.truthy (error (h env s)) then [] else ["/app"]) in
  let thrown (viaObject : bool) : option JS.Error :=
    if viaObject then Auth.call env
    else match Auth.sdkImport env with
         | Some err => Some err
         | None => Auth.call env
         end in
  let outcome (fallback : string) (viaObject : bool) (s' : State) :=
    match thrown viaObject with
    | None =>
        error s' = ""
        /\ Auth.navigations (effects s') =
           Auth.navigations (effects s) ++ ["/app"]
    | Some err =>
        error s' = JS.or_else (JS.message err) fallback
        /\ JS.truthy (error s') = true
        /\ Auth.navigations (effects s') = Auth.navigations (effects s)
    end in
  done handleEmailSignup /\ done handleGoogleSignup
  /\ (inputsOk s = false ->
      JS.truthy (error (handleEmailSignup env s)) = true
      /\ Auth.navigations (effects (handleEmailSignup env s)) =
         Auth.navigations (effects s))
  /\ (inputsOk s = true ->
      outcome "Failed to create account"
        (Auth.isDevMode env || Auth.isBackendAuth env)
        (handleEmailSignup env s))
  /\ (if Auth.isDevMode env || Auth.isBackendAuth env
      then error (handleGoogleSignup env s) =
           "Google sign-in is not available. Please use email/password sign-up."
           /\ effects (handleGoogleSignup env s) = effects s
      else outcome "Failed to sign up with Google" false
             (handleGoogleSignup env s)).
Proof.
  cbv zeta. split; [|split; [|split; [|split]]].
  - unfold handleEmailSignup. cbn [email password displayName setError setLoading].
    destruct (negb (JS.truthy (JS.trim (email s))));
      [cbn; now rewrite app_nil_r|].
    destruct (negb (JS.truthy (JS.trim (password s))));
      [cbn; now rewrite app_nil_r|].
    destruct (String.length (password s) <? 6);
      [cbn; now rewrite app_nil_r|].
    destruct (Auth.isDevMode env || Auth.isBackendAuth env).
    + destruct (settle_outcome "Failed to create account" (Auth.call env)
                  (emit (Auth.AuthCreateUser (JS.trim (email s)) (password s)
                           (JS.or_undefined (Some (JS.trim (displayName s)))))
                     (setError "" (setLoading true s))))
        as [L N]; [reflexivity..|].
      split; [exact L|]. rewrite N. cbn [emit effects setError setLoading].
      now rewrite auth_navigations_snoc, app_nil_r.
    + destruct (Auth.sdkImport env) as [err|].
      * destruct (settle_outcome "Failed to create account" (Some err)
                    (setError "" (setLoading true s)))
          as [L N]; [reflexivity..|].
        split; [exact L|]. now rewrite N.
      * destruct (settle_outcome "Failed to create account" (Auth.call env)
                    (emit (Auth.FirebaseCreateUser (JS.trim (email s))
                             (password s))
                       (setError "" (setLoading true s))))
          as [L N]; [reflexivity..|].
        split; [exact L|]. rewrite N. cbn [emit effects setError setLoading].
        now rewrite auth_navigations_snoc, app_nil_r.
  - unfold handleGoogleSignup.
    destruct (Auth.isDevMode env || Auth.isBackendAuth env);
      [cbn; now rewrite app_nil_r|].
    destruct (Auth.sdkImport env) as [err|].
    + destruct (settle_outcome "Failed to sign up with Google" (Some err)
                  (setError "" (setLoading true s)))
        as [L N]; [reflexivity..|].
      split; [exact L|]. now rewrite N.
    + destruct (settle_outcome "Failed to sign up with Google" (Auth.call env)
                  (emit Auth.GooglePopup (setError "" (setLoading true s))))
        as [L N]; [reflexivity..|].
      split; [exact L|]. rewrite N. cbn [emit effects setError setLoading].
      now rewrite auth_navigations_snoc, app_nil_r.
  - unfold inputsOk, handleEmailSignup. intros H.
    cbn [email password displayName setError setLoading].
    destruct (JS.truthy (JS.trim (email s))); cbn [negb]; [|now cbn].
    destruct (JS.truthy (JS.trim (password s))); cbn [negb]; [|now cbn].
    cbn [andb] in H. rewrite Nat.ltb_antisym, H. now cbn.
  - unfold inputsOk, handleEmailSignup. intros Hok.
    apply andb_true_iff in Hok as [Hok H6].
    apply andb_true_iff in Hok as [He Hp].
    cbn [email password displayName setError setLoading].
    rewrite He, Hp, Nat.ltb_antisym, H6. cbn [negb].
    destruct (Auth.isDevMode env || Auth.isBackendAuth env).
    + pose proof (settle_result "Failed to create account" (Auth.call env)
                    (emit (Auth.AuthCreateUser (JS.trim (email s)) (password s)
                             (JS.or_undefined (Some (JS.trim (displayName s)))))
                       (setError "" (setLoading true s)))
                    eq_refl eq_refl) as R.
      cbn [emit effects setError setLoading] in R.
      rewrite auth_navigations_snoc, app_nil_r in R. exact R.
    + destruct (Auth.sdkImport env) as [err|].
      * exact (settle_result "Failed to create account" (Some err)
                 (setError "" (setLoading true s)) eq_refl eq_refl).
      * pose proof (settle_result "Failed to create account" (Auth.call env)
                      (emit (Auth.FirebaseCreateUser (JS.trim (email s))
                               (password s))
                         (setError "" (setLoading true s)))
                      eq_refl eq_refl) as R.
        cbn [emit effects setError setLoading] in R.
        rewrite auth_navigations_snoc, app_nil_r in R. exact R.
  - unfold handleGoogleSignup.
    destruct (Auth.isDevMode env || Auth.isBackendAuth env);
      [split; reflexivity|].
    destruct (Auth.sdkImport env) as [err|].
    + exact (settle_result "Failed to sign up with Google" (Some err)
               (setError "" (setLoading true s)) eq_refl eq_refl).
    + pose proof (settle_result "Failed to sign up with Google" (Auth.call env)
                    (emit Auth.GooglePopup (setError "" (setLoading true s)))
                    eq_refl eq_refl) as R.
      cbn [emit effects setError setLoading] in R.
      rewrite auth_navigations_snoc, app_nil_r in R. exact R.
Qed.

Lemma signup_navigates_iff_no_error_witness :
  let refused :=
    {| Auth.isDevMode := false; Auth.isBackendAuth := false;
       Auth.sdkImport := None;
       Auth.call := Some {| JS.message := "" |} |} in
  let offline :=
    {| Auth.isDevMode := false; Auth.isBackendAuth := false;
       Auth.sdkImport := Some {| JS.message := "Failed to fetch" |};
       Auth.call := None |} in
  let granted :=
    {| Auth.isDevMode := false; Auth.isBackendAuth := true;
       Auth.sdkImport := None; Auth.call := None |} in
  let form := filled "a@b.c" "secret" "Ann" in
  (error (handleEmailSignup refused form) = "Failed to create account"
   /\ Auth.navigations (effects (handleEmailSignup refused form)) = [])
  /\ (error (handleEmailSignup offline form) = "Failed to fetch"
      /\ Auth.navigations (effects (handleEmailSignup offline form)) = [])
  /\ (error (handleEmailSignup granted form) = ""
      /\ Auth.navigations (effects (handleEmailSignup granted form)) =
         ["/app"]).
Proof.
  intros refused offline granted form.
  destruct (signup_navigates_iff_no_error refused form) as (_ & _ & _ & R & _).
  destruct (signup_navigates_iff_no_error offline form) as (_ & _ & _ & O & _).
  destruct (signup_navigates_iff_no_error granted form) as (_ & _ & _ & G & _).
  specialize (R eq_refl). specialize (O eq_refl). specialize (G eq_refl).
  cbn in R, O, G.
  destruct R as (R1 & _ & R3). destruct O as (O1 & _ & O3).
  destruct G as (G1 & G2).
  repeat split; assumption.
Defined.

(** X16. Outside dev mode and backend auth, the display name typed on the
    sign-up page has no influence on what the page does: the Firebase
    call takes the email and the password only.  Through the [auth]
    object, a display name of white space is passed as undefined. *)
Theorem display_name_reaches_only_the_auth_object
    (env : Auth.Env) (s : State) (name : string) :
  (Auth.isDevMode env = false -> Auth.isBackendAuth env = false ->
   effects (handleEmailSignup env (setDisplayName name s))
   = effects (handleEmailSignup env s)
   /\ error (handleEmailSignup env (setDisplayName name s))
      = error (handleEmailSignup env s))
  /\ (Auth.isDevMode env || Auth.isBackendAuth env = true ->
      inputsOk s = true ->
      JS.all_white_space name = true ->
      In (Auth.AuthCreateUser (JS.trim (email s)) (password s) None)
        (effects (handleEmailSignup env (setDisplayName name s)))).
Proof.
  split.
  - intros Hd Hb. unfold handleEmailSignup. rewrite Hd, Hb.
    cbn [email password displayName setError setLoading setDisplayName orb].
    destruct (JS.truthy (JS.trim (email s))); cbn [negb]; [|now cbn].
    destruct (JS.truthy (JS.trim (password s))); cbn [negb]; [|now cbn].
    destruct (String.length (password s) <? 6); [now cbn|].
    destruct (Auth.sdkImport env), (Auth.call env); now cbn.
  - intros Hm Hok Hw. unfold inputsOk in Hok.
    apply andb_true_iff in Hok as [Hok H6].
    apply andb_true_iff in Hok as [He Hp].
    apply blank_iff in Hw.
    unfold handleEmailSignup.
    cbn [email password displayName setError setLoading setDisplayName].
    rewrite He, Hp, Nat.ltb_antisym, H6, Hm. cbn [negb].
    unfold JS.or_undefined, JS.truthy_opt. rewrite Hw.
    unfold settle. destruct (Auth.call env); cbn;
      rewrite ?in_app_iff; cbn; auto.
Qed.

Lemma display_name_reaches_only_the_auth_object_witness :
  let env := {| Auth.isDevMode := false; Auth.isBackendAuth := false;
                Auth.sdkImport := None; Auth.call := None |} in
  effects (handleEmailSignup env (setDisplayName "Ann" (filled "a@b.c" "secret1" "")))
  = [Auth.FirebaseCreateUser "a@b.c" "secret1"; Auth.Navigate "/app"].
Proof.
  intros env.
  destruct (display_name_reaches_only_the_auth_object env
              (filled "a@b.c" "secret1" "") "Ann") as [H _].
  destruct H as [H _]; [reflexivity | reflexivity |].
  rewrite H. reflexivity.
Defined.

End SignupFacts.

Section LoginFacts.

Import LoginPage.

Lemma login_settle_outcome (fallback : string) (o : option JS.Error)
    (s : State) :
  JS.truthy fallback = true ->
  error s = "" ->
  loading (settle fallback o s) = false
  /\ Auth.navigations (effects (settle fallback o s)) =
     Auth.navigations (effects s)
     ++ (if JS.truthy (error (settle fallback o s)) then [] else ["/app"]).
Proof.
  intros Hf He. unfold settle. destruct o as [err|]; cbn.
  - rewrite (or_else_truthy _ _ Hf). now rewrite app_nil_r.
  - rewrite He, auth_navigations_snoc. now cbn.
Qed.

(** X17. Each handler of the sign-in page ends with loading off, and
    navigates to /app exactly when it ends with no error shown; with a
    blank email or a blank password the email handler calls nothing. *)
Theorem login_navigates_iff_no_error (env : Auth.Env) (s : State) :
  let done h :=
    loading (h env s) = false
    /\ Auth.navigations (effects (h env s)) =
       Auth.navigations (effects s)
       ++ (if JS.truthy (error (h env s)) then [] else ["/app"]) in
  done handleEmailLogin /\ done handleGoogleLogin
  /\ (JS.truthy (JS.trim (email s)) && JS.truthy (JS.trim (password s)) = false ->
      effects (handleEmailLogin env s) = effects s).
Proof.
  cbv zeta. split; [|split].
  - unfold handleEmailLogin. cbn [email password setError setLoading].
    destruct (negb (JS.truthy (JS.trim (email s))));
      [cbn; now rewrite app_nil_r|].
    destruct (negb (JS.truthy (JS.trim (password s))));
      [cbn; now rewrite app_nil_r|].
    destruct (Auth.isDevMode env).
    + destruct (login_settle_outcome "Failed to sign in" (Auth.call env)
                  (emit (Auth.AuthSignIn (JS.trim (email s)) (password s))
                     (setError "" (setLoading true s))))
        as [L N]; [reflexivity..|].
      split; [exact L|]. rewrite N. cbn [emit effects setError setLoading].
      now rewrite auth_navigations_snoc, app_nil_r.
    + destruct (Auth.sdkImport env) as [err|].
      * destruct (login_settle_outcome "Failed to sign in" (Some err)
                    (setError "" (setLoading true s)))
          as [L N]; [reflexivity..|].
        split; [exact L|]. now rewrite N.
      * destruct (login_settle_outcome "Failed to sign in" (Auth.call env)
                    (emit (Auth.FirebaseSignIn (JS.trim (email s)) (password s))
                       (setError "" (setLoading true s))))
          as [L N]; [reflexivity..|].
        split; [exact L|]. rewrite N. cbn [emit effects setError setLoading].
        now rewrite auth_navigations_snoc, app_nil_r.
  - unfold handleGoogleLogin.
    destruct (Auth.isDevMode env); [cbn; now rewrite app_nil_r|].
    destruct (Auth.sdkImport env) as [err|].
    + destruct (login_settle_outcome "Failed to sign in with Google" (Some err)
                  (setError "" (setLoading true s)))
        as [L N]; [reflexivity..|].
      split; [exact L|]. now rewrite N.
    + destruct (login_settle_outcome "Failed to sign in with Google"
                  (Auth.call env)
                  (emit Auth.GooglePopup (setError "" (setLoading true s))))
        as [L N]; [reflexivity..|].
      split; [exact L|]. rewrite N. cbn [emit effects setError setLoading].
      now rewrite auth_navigations_snoc, app_nil_r.
  - intros H. unfold handleEmailLogin. cbn [email password setError setLoading].
    destruct (JS.truthy (JS.trim (email s))); cbn [negb]; [|reflexivity].
    cbn [andb] in H. now rewrite H.
Qed.

Lemma login_navigates_iff_no_error_witness :
  effects (handleEmailLogin
             {| Auth.isDevMode := true; Auth.isBackendAuth := false;
                Auth.sdkImport := None; Auth.call := None |}
             (filled "a@b.c" "  ")) = [].
Proof.
  destruct (login_navigates_iff_no_error
              {| Auth.isDevMode := true; Auth.isBackendAuth := false;
                 Auth.sdkImport := None; Auth.call := None |}
              (filled "a@b.c" "  ")) as (_ & _ & H).
  apply H. reflexivity.
Defined.

(** What the email handler of the sign-in page calls for inputs that
    pass its checks. *)
Lemma login_call (env : Auth.Env) (s : State) :
  JS.truthy (JS.trim (email s)) = true ->
  JS.truthy (JS.trim (password s)) = true ->
  Auth.sdkImport env = None ->
  List.filter Auth.isCall (effects (handleEmailLogin env s)) =
  List.filter Auth.isCall (effects s)
  ++ [if Auth.isDevMode env
      then Auth.AuthSignIn (JS.trim (email s)) (password s)
      else Auth.FirebaseSignIn (JS.trim (email s)) (password s)].
Proof.
  intros He Hp Hi. unfold handleEmailLogin, settle.
  cbn [email password setError setLoading]. rewrite He, Hp, Hi. cbn [negb].
  destruct (Auth.isDevMode env), (Auth.call env); cbn;
    rewrite ?List.filter_app; cbn; now rewrite ?app_nil_r.
Qed.

(** X18. Credentials that pass the checks of the sign-up page pass those
    of the sign-in page, and both pages hand on the same pair: the
    trimmed email and the password as typed, whether the email is typed
    again as it was or already trimmed.  Sign-up goes through the [auth]
    object in dev mode or under backend auth, sign-in only in dev mode. *)
Theorem credentials_of_signup_pass_login
    (env : Auth.Env) (e p d typed : string) :
  SignupPage.inputsOk (SignupPage.filled e p d) = true ->
  Auth.sdkImport env = None ->
  typed = e \/ typed = JS.trim e ->
  List.filter Auth.isCall
    (SignupPage.effects
       (SignupPage.handleEmailSignup env (SignupPage.filled e p d)))
  = [if Auth.isDevMode env || Auth.isBackendAuth env
     then Auth.AuthCreateUser (JS.trim e) p
            (JS.or_undefined (Some (JS.trim d)))
     else Auth.FirebaseCreateUser (JS.trim e) p]
  /\ List.filter Auth.isCall
       (effects (handleEmailLogin env (filled typed p)))
     = [if Auth.isDevMode env then Auth.AuthSignIn (JS.trim e) p
        else Auth.FirebaseSignIn (JS.trim e) p].
Proof.
  intros Hok Hi Ht. unfold SignupPage.inputsOk, SignupPage.filled in Hok.
  cbn [SignupPage.email SignupPage.password] in Hok.
  apply andb_true_iff in Hok as [Hok H6].
  apply andb_true_iff in Hok as [He Hp].
  split.
  - unfold SignupPage.handleEmailSignup, SignupPage.settle.
    cbn [SignupPage.email SignupPage.password SignupPage.displayName
         SignupPage.setError SignupPage.setLoading SignupPage.filled].
    rewrite He, Hp, Hi, Nat.ltb_antisym, H6. cbn [negb].
    destruct (Auth.isDevMode env || Auth.isBackendAuth env), (Auth.call env);
      reflexivity.
  - assert (Ht' : JS.trim typed = JS.trim e)
      by (destruct Ht as [->| ->]; [reflexivity|apply trim_twice]).
    rewrite login_call; cbn [filled email password effects]; rewrite ?Ht';
      auto.
Qed.

Lemma credentials_of_signup_pass_login_witness :
  let env := {| Auth.isDevMode := false; Auth.isBackendAuth := true;
                Auth.sdkImport := None; Auth.call := None |} in
  List.filter Auth.isCall
    (SignupPage.effects
       (SignupPage.handleEmailSignup env
          (SignupPage.filled " a@b.c " "secret1" "Ann")))
  = [Auth.AuthCreateUser "a@b.c" "secret1" (Some "Ann")]
  /\ List.filter Auth.isCall
       (effects (handleEmailLogin env (filled "a@b.c" "secret1")))
     = [Auth.FirebaseSignIn "a@b.c" "secret1"].
Proof.
  intros env.
  destruct (credentials_of_signup_pass_login env " a@b.c " "secret1" "Ann"
              "a@b.c") as [H1 H2];
    [reflexivity | reflexivity | right; reflexivity |].
  split; [exact H1 | exact H2].
Defined.

(** X19. Google sign-in opens its popup only through the Firebase SDK: in
    dev mode (and, on the sign-up page, under backend auth) the handler
    calls nothing, navigates nowhere, and ends with loading off and a
    notice shown. *)
Theorem google_needs_the_firebase_sdk
    (env : Auth.Env) (su : SignupPage.State) (li : State) :
  (Auth.isDevMode env || Auth.isBackendAuth env = true ->
   SignupPage.effects (SignupPage.handleGoogleSignup env su)
   = SignupPage.effects su
   /\ SignupPage.loading (SignupPage.handleGoogleSignup env su) = false
   /\ JS.truthy (SignupPage.error (SignupPage.handleGoogleSignup env su))
      = true)
  /\ (Auth.isDevMode env = true ->
      effects (handleGoogleLogin env li) = effects li
      /\ loading (handleGoogleLogin env li) = false
      /\ JS.truthy (error (handleGoogleLogin env li)) = true).
Proof.
  split.
  - intros H. unfold SignupPage.handleGoogleSignup. rewrite H. now cbn.
  - intros H. unfold handleGoogleLogin. rewrite H. now cbn.
Qed.

Lemma google_needs_the_firebase_sdk_witness :
  let env := {| Auth.isDevMode := true; Auth.isBackendAuth := false;
                Auth.sdkImport := None; Auth.call := None |} in
  effects (handleGoogleLogin env (filled "" "")) = []
  /\ SignupPage.effects
       (SignupPage.handleGoogleSignup env (SignupPage.filled "" "" "")) = [].
Proof.
  intros env.
  destruct (google_needs_the_firebase_sdk env (SignupPage.filled "" "" "")
              (filled "" "")) as (H1 & H2).
  destruct (H1 eq_refl) as (S1 & _). destruct (H2 eq_refl) as (L1 & _).
  split; [exact L1 | exact S1].
Defined.

End LoginFacts.

(** ** The route guard *)

Section GuardFacts.

Import App.

Lemma authStates_snoc (us : list (option string)) (u : option string)
    (g : Guard) :
  authStates (us ++ [u]) g = onAuthStateChanged u (authStates us g).
Proof.
  revert g. induction us as [|u' us IH]; intros g; [reflexivity|].
  cbn [authStates app]. apply IH.
Qed.

Lemma authStates_last (us : list (option string)) (g : Guard) :
  authStates us g =
  match last us with
  | None => g
  | Some u => {| user := u; loading := false |}
  end.
Proof.
  destruct us as [|u us _] using rev_ind; [reflexivity|].
  now rewrite authStates_snoc, last_snoc.
Qed.

(** X20. The guard shows the spinner until the first auth state arrives;
    from then on it depends on the latest auth state only: the protected
    page with a user, a redirect to /login (replacing the history entry)
    without one. *)
Theorem guard_follows_latest_auth_state (us : list (option string)) :
  ProtectedRoute (authStates us mounted) =
  match last us with
  | None => LoadingSpinner
  | Some None => NavigateTo "/login" true
  | Some (Some _) => Children
  end.
Proof.
  rewrite authStates_last. destruct (last us) as [[u|]|]; reflexivity.
Qed.

End GuardFacts.
